(** * Financify: ledger metrics, document extraction, advisor and quiz

    A shallow embedding of the logic of [app.py].  Each Streamlit page is
    a script that is re-run on every interaction: here a page is a function
    from the session state (and the widget inputs of that run) to the new
    session state and what the run showed.

    Numbers.  Python floats are modelled by exact rationals ([Q]); rounding
    of binary floating point, infinities and NaN are outside the model.
    Where the code divides, the quotient is exact here and rounded in the
    code, so a value that falls next to an integer or to a threshold can
    differ by the rounding (with income 50000 and Rent 35500 the code
    truncates 28.999999999999996 to 28, the exact quotient is 29).  The
    properties of the savings rate and percentage are therefore stated on
    signs, bounds and clamps, not on the digits of the quotient.
    Strings are [string]; a Python [dict] whose iteration order matters is
    an association list in insertion order. *)

From Stdlib Require Import QArith Qround ZArith String Ascii List Sorted Permutation Lia Lqa Bool.
From stdpp Require Import base option gmap strings.
Import ListNotations.

#[local] Set Warnings "-register-all".

Local Open Scope Q_scope.

(** ** Python primitives on numbers *)

(** [x < y] on floats. *)
Definition Qlt_bool (x y : Q) : bool := negb (Qle_bool y x).

(** Truth value of a float: only zero is false. *)
Definition truthy_float (x : Q) : bool := negb (Qeq_bool x 0).

(** [int(x)]: truncation toward zero. *)
Definition py_int (x : Q) : Z := Z.quot (Qnum x) (Zpos (Qden x)).

(** [sum(xs)]: starts from [0] and adds from the left. *)
Definition py_sum (xs : list Q) : Q := fold_left Qplus xs 0.

(** ** Session state (the keys read and written by the ledger, the
    extraction and the advisor).

    ['income'] and ['expense_entries'] are always present: the script
    initialises both before any page runs (lines 836-842).  The other keys
    are created on first use, hence the options. *)

Record expense_entry := { category : string; amount : Q }.

Inductive role := assistant | user.

Record chat_message := { msg_role : role; content : string }.

Record session_state := {
  name : string;
  income : Q;
  income_text : option string;
  expense_entries : list expense_entry;
  chat_history : option (list chat_message);
  processing_response : option bool
}.

(** ** Python dict as an insertion-ordered association list *)

Abbreviation dict := (list (string * Q)).

(** [d[k] = v]: an existing key keeps its position and takes the new
    value; a new key goes to the end. *)
Fixpoint dict_set (d : dict) (k : string) (v : Q) : dict :=
  match d with
  | [] => [(k, v)]
  | (k', v') :: d' =>
      if String.eqb k' k then (k', v) :: d' else (k', v') :: dict_set d' k v
  end.

Fixpoint dict_get (d : dict) (k : string) : option Q :=
  match d with
  | [] => None
  | (k', v') :: d' => if String.eqb k' k then Some v' else dict_get d' k
  end.

(** [{entry['category']: entry['amount'] for entry in entries}] *)
Definition expenses_data (entries : list expense_entry) : dict :=
  fold_left (fun d e => dict_set d (category e) (amount e)) entries [].

(** The amount of the last entry of a list with a given category. *)
Definition last_amount (c : string) (entries : list expense_entry) : option Q :=
  fold_left (fun acc e => if String.eqb (category e) c then Some (amount e) else acc)
            entries None.

(** ** Home page (page_home, lines 270-297) *)

Record home_view := {
  hv_income : Q;
  hv_total_expenses : Q;
  hv_balance : Q;
  hv_savings_pct : Z;
  hv_target_income : Q
}.

(** [None]: the page showed the "add your income" notice and returned
    before computing anything (line 270).  The quotient of line 296 is
    exact here (see the note on numbers at the top). *)
Definition page_home (st : session_state) : option home_view :=
  if negb (truthy_float (income st)) then None
  else
    let income := income st in
    let expenses_data := expenses_data (expense_entries st) in
    let total_expenses := py_sum (map snd expenses_data) in
    let balance := income - total_expenses in
    let savings_pct :=
      if Qlt_bool 0 income then py_int ((balance / income) * 100) else 0%Z in
    let savings_pct := Z.max 0 savings_pct in
    let target_income := income * (12 # 10) in
    Some {| hv_income := income;
            hv_total_expenses := total_expenses;
            hv_balance := balance;
            hv_savings_pct := savings_pct;
            hv_target_income := target_income |}.

(** ** Insights page (page_insights, lines 389-451) *)

Inductive risk_profile := Aggressive | Balanced | Conservative.

(** Lines 403-408. *)
Definition risk_bucket (savings_rate : Q) : risk_profile :=
  if Qlt_bool savings_rate 10 then Aggressive
  else if Qle_bool 10 savings_rate && Qlt_bool savings_rate 25 then Balanced
  else Conservative.

Inductive budget_status := OnTrack | OverBudget.

(** Stable insertion sort by increasing key: an element is placed before
    the first element whose key is not smaller. *)
Fixpoint insert_by {A} (key : A -> Q) (x : A) (l : list A) : list A :=
  match l with
  | [] => [x]
  | y :: l' => if Qle_bool (key x) (key y) then x :: y :: l'
               else y :: insert_by key x l'
  end.

Definition stable_sort {A} (key : A -> Q) (l : list A) : list A :=
  fold_right (insert_by key) [] l.

(** [sorted(l, key=key, reverse=reverse)].  Python's sort is stable; with
    [reverse=True] the list is reversed, sorted and reversed again, so that
    equal keys keep their original order. *)
Definition py_sorted {A} (key : A -> Q) (reverse : bool) (l : list A) : list A :=
  if reverse then rev (stable_sort key (rev l)) else stable_sort key l.

(** Line 449. *)
Definition sorted_expenses (expenses_data : dict) : dict :=
  py_sorted snd true expenses_data.

Record insights_view := {
  iv_income : Q;
  iv_total_expenses : Q;
  iv_balance : Q;
  iv_savings_rate : Q;
  iv_risk_profile : risk_profile;
  iv_budget_goal : Q;
  iv_remaining_budget : Q;
  iv_status : budget_status;
  iv_sorted_expenses : dict;
  iv_labels : list string;
  iv_values : list Q
}.

(** [None]: the page asked for income and expenses and returned (line 389).
    The quotients of lines 398 and 429 are exact here (see the note on
    numbers at the top). *)
Definition page_insights (st : session_state) : option insights_view :=
  if negb (truthy_float (income st)) || negb (match expense_entries st with [] => false | _ => true end)
  then None
  else
    let income := income st in
    let expenses_data := expenses_data (expense_entries st) in
    let total_expenses := py_sum (map snd expenses_data) in
    let balance := income - total_expenses in
    let savings_rate := if Qlt_bool 0 income then balance / income * 100 else 0 in
    let budget_goal := income * (8 # 10) in
    let remaining_budget := budget_goal - total_expenses in
    let sorted := sorted_expenses expenses_data in
    Some {| iv_income := income;
            iv_total_expenses := total_expenses;
            iv_balance := balance;
            iv_savings_rate := savings_rate;
            iv_risk_profile := risk_bucket savings_rate;
            iv_budget_goal := budget_goal;
            iv_remaining_budget := remaining_budget;
            iv_status := if Qle_bool 0 remaining_budget then OnTrack else OverBudget;
            iv_sorted_expenses := sorted;
            iv_labels := map fst sorted;
            iv_values := map snd sorted |}.

(** ** Python values returned by [json.loads] *)

Inductive json :=
| JNull
| JBool (b : bool)
| JNum (q : Q)
| JStr (s : string)
| JArr (items : list json)
| JObj (fields : list (string * json)).

(** Exceptions (subclasses of [Exception]) the modelled code can meet.
    [LibraryException text] is any exception raised inside the generative
    AI client or the image library; [text] is its [str()]. *)
Inductive exn :=
| JSONDecodeError
| AttributeError
| TypeError
| ValueError
| KeyError
| IndexError
| LibraryException (text : string).

(** What ends a block early.  [st.rerun()] and [st.stop()] raise
    exceptions that derive from [BaseException], so [except Exception]
    does not catch them.  [Unmodelled]: the code goes on with a value the
    model has no type for (see [entry_category]). *)
Inductive signal :=
| Raise (e : exn)
| RerunException
| StopException
| Unmodelled.

Definition result (A : Type) : Type := signal + A.

Definition rbind {A B} (r : result A) (k : A -> result B) : result B :=
  match r with
  | inl s => inl s
  | inr a => k a
  end.

Definition raise {A} (e : exn) : result A := inl (Raise e).

(** Truth value of a Python object. *)
Definition truthy (j : json) : bool :=
  match j with
  | JNull => false
  | JBool b => b
  | JNum q => truthy_float q
  | JStr s => negb (String.eqb s "")
  | JArr items => match items with [] => false | _ => true end
  | JObj fields => match fields with [] => false | _ => true end
  end.

Fixpoint assoc (fields : list (string * json)) (k : string) : option json :=
  match fields with
  | [] => None
  | (k', v) :: fields' => if String.eqb k' k then Some v else assoc fields' k
  end.

(** [obj.get(k, default)]; only a dict has [get]. *)
Definition py_get (obj : json) (k : string) (default : json) : result json :=
  match obj with
  | JObj fields => inr (match assoc fields k with Some v => v | None => default end)
  | _ => raise AttributeError
  end.

(** [obj[k]] for a string key. *)
Definition py_getitem (obj : json) (k : string) : result json :=
  match obj with
  | JObj fields => match assoc fields k with Some v => inr v | None => raise KeyError end
  | _ => raise TypeError
  end.

Fixpoint chars (s : string) : list json :=
  match s with
  | EmptyString => []
  | String c s' => JStr (String c EmptyString) :: chars s'
  end.

(** The elements a [for] loop over the object visits. *)
Definition py_iter (obj : json) : result (list json) :=
  match obj with
  | JArr items => inr items
  | JObj fields => inr (map (fun kv => JStr (fst kv)) fields)
  | JStr s => inr (chars s)
  | _ => raise TypeError
  end.

(** ** Fence stripping (line 148) *)

(** [str.isspace] on the ASCII range. *)
Definition is_space (c : ascii) : bool :=
  let n := nat_of_ascii c in
  ((9 <=? n) && (n <=? 13) || (28 <=? n) && (n <=? 32))%nat.

Fixpoint lstrip (s : string) : string :=
  match s with
  | EmptyString => EmptyString
  | String c s' => if is_space c then lstrip s' else s
  end.

Fixpoint rstrip (s : string) : string :=
  match s with
  | EmptyString => EmptyString
  | String c s' =>
      match rstrip s' with
      | EmptyString => if is_space c then EmptyString else String c EmptyString
      | r => String c r
      end
  end.

Definition py_strip (s : string) : string := rstrip (lstrip s).

(** [skip] counts the characters of a match still to be dropped. *)
Fixpoint replace_from (old new : string) (skip : nat) (s : string) : string :=
  match s with
  | EmptyString => EmptyString
  | String c s' =>
      match skip with
      | S k => replace_from old new k s'
      | O =>
          if String.prefix old s
          then (new ++ replace_from old new (String.length old - 1) s')%string
          else String c (replace_from old new 0 s')
      end
  end.

(** [s.replace(old, new)] for a non-empty [old]: occurrences are replaced
    from the left and do not overlap. *)
Definition py_replace (old new s : string) : string := replace_from old new 0 s.

Definition clean_response (text : string) : string :=
  py_replace "```" "" (py_replace "```json" "" (py_strip text)).

(** ** Document extraction (analyze_document_with_vision, lines 135-166) *)

Record uploaded_file := {
  file_type : string;
  (** [Some text]: [Image.open] raises an exception whose text is [text]. *)
  image_open_error : option string
}.

Inductive request :=
| TextRequest (prompt : string)
| VisionRequest (prompt : string) (image : uploaded_file).

(** [response.text] of a call to the model, or the exception it raised. *)
Inductive oracle_result :=
| OracleText (text : string)
| OracleRaises (text : string).

Inductive shown_error :=
| ErrorText (text : string)
| ErrorWithException (prefix : string) (e : exn).

(** How a call of [analyze_document_with_vision] ends. *)
Inductive outcome :=
| Returned (err : shown_error)  (* normal return after [st.error] *)
| Rerun                         (* [st.rerun()] after the success notice *)
| Stopped                       (* [st.stop()] after "Unsupported file type" *)
| OutsideModel.

(** State and early exit: writes to the session state stay when a later
    statement raises. *)
Definition M (A : Type) : Type := session_state -> session_state * result A.

Definition ret {A} (a : A) : M A := fun st => (st, inr a).

Definition bind {A B} (m : M A) (k : A -> M B) : M B :=
  fun st => match m st with
            | (st', inl s) => (st', inl s)
            | (st', inr a) => k a st'
            end.

Definition lift {A} (r : result A) : M A := fun st => (st, r).

Definition put (f : session_state -> session_state) : M unit :=
  fun st => (f st, inr tt).

Definition set_income (v : Q) (st : session_state) : session_state :=
  {| name := name st; income := v; income_text := income_text st;
     expense_entries := expense_entries st; chat_history := chat_history st;
     processing_response := processing_response st |}.

Definition set_income_text (v : string) (st : session_state) : session_state :=
  {| name := name st; income := income st; income_text := Some v;
     expense_entries := expense_entries st; chat_history := chat_history st;
     processing_response := processing_response st |}.

Definition set_expense_entries (v : list expense_entry) (st : session_state) : session_state :=
  {| name := name st; income := income st; income_text := income_text st;
     expense_entries := v; chat_history := chat_history st;
     processing_response := processing_response st |}.

Definition set_chat_history (v : list chat_message) (st : session_state) : session_state :=
  {| name := name st; income := income st; income_text := income_text st;
     expense_entries := expense_entries st; chat_history := Some v;
     processing_response := processing_response st |}.

Definition set_processing_response (v : bool) (st : session_state) : session_state :=
  {| name := name st; income := income st; income_text := income_text st;
     expense_entries := expense_entries st; chat_history := chat_history st;
     processing_response := Some v |}.

Definition newline : string := String (ascii_of_nat 10) EmptyString.

Definition MODEL_NAME : string := "gemini-1.5-flash".

(** The text shown when the response is not valid JSON (line 164). *)
Definition retry_message : string :=
  "AI analysis failed. The model did not return valid data. Please try a clearer document.".

Section Oracle.

(** The prompt texts (lines 61-112). *)
Variable ADVISOR_SYSTEM_PROMPT : string.
Variable DOCUMENT_ANALYSIS_PROMPT : string.

(** [genai.GenerativeModel(name)]: [Some text] when it raises. *)
Variable GenerativeModel : string -> option string.
(** [model.generate_content(request).text] *)
Variable generate_content : request -> oracle_result.

(** [json.loads]: [None] when it raises [JSONDecodeError]. *)
Variable json_loads : string -> option json.
(** [float(s)] for a string: [None] when it raises [ValueError]. *)
Variable float_of_string : string -> option Q.
(** [str(x)] and the formatting of a float inside an f-string. *)
Variable py_str : json -> string.
Variable str_float : Q -> string.
(** [s.capitalize()] *)
Variable capitalize : string -> string.

Notation "'do' x <- m ; k" := (bind m (fun x => k))
  (at level 10, x name, m at level 100, k at level 200).
Notation "'run' m ; k" := (bind m (fun _ => k))
  (at level 10, m at level 100, k at level 200).

(** [float(x)] *)
Definition py_float (x : json) : result Q :=
  match x with
  | JNum q => inr q
  | JBool b => inr (if b then 1 else 0)
  | JStr s => match float_of_string s with Some q => inr q | None => raise ValueError end
  | _ => raise TypeError
  end.

(** The category kept in an entry.  The code stores [item['category']]
    as it is; entries keep categories as strings, so a true value that
    is not a string ends the model. *)
Definition entry_category (c : json) : result string :=
  match c with
  | JStr s => inr s
  | _ => inl Unmodelled
  end.

(** One iteration of the comprehension of line 157: the condition, with
    its short-circuit [and], then the element. *)
Definition comprehension_step (item : json) : result (option expense_entry) :=
  rbind (py_get item "category" JNull) (fun c =>
  if truthy c then
    rbind (py_get item "amount" (JNum 0)) (fun a =>
    rbind (py_float a) (fun a' =>
    if Qlt_bool 0 a' then
      rbind (py_getitem item "category") (fun c' =>
      rbind (py_getitem item "amount") (fun a2 =>
      rbind (py_float a2) (fun amt =>
      rbind (entry_category c') (fun cat =>
      inr (Some {| category := cat; amount := amt |})))))
    else inr None))
  else inr None).

Fixpoint comprehension (items : list json) : result (list expense_entry) :=
  match items with
  | [] => inr []
  | item :: items' =>
      rbind (comprehension_step item) (fun o =>
      rbind (comprehension items') (fun rest =>
      inr (match o with Some e => e :: rest | None => rest end)))
  end.

Definition open_image (f : uploaded_file) : M unit :=
  if String.prefix "image/" (file_type f) then
    match image_open_error f with
    | Some text => lift (raise (LibraryException text))
    | None => ret tt
    end
  else lift (inl StopException).

Definition ask_oracle (r : request) : result string :=
  match generate_content r with
  | OracleText text => inr text
  | OracleRaises text => raise (LibraryException text)
  end.

(** The body of the [try] (lines 138-161). *)
Definition analyze_body (f : uploaded_file) : M unit :=
  run lift (match GenerativeModel MODEL_NAME with
            | Some text => raise (LibraryException text)
            | None => inr tt
            end) ;
  run open_image f ;
  do text <- lift (ask_oracle (VisionRequest DOCUMENT_ANALYSIS_PROMPT f)) ;
  let cleaned_response := clean_response text in
  do data <- lift (match json_loads cleaned_response with
                   | Some d => inr d
                   | None => raise JSONDecodeError
                   end) ;
  do income <- lift (py_get data "income" (JNum 0)) ;
  do expenses_list <- lift (py_get data "expenses" (JArr [])) ;
  do income_f <- lift (py_float income) ;
  run put (set_income income_f) ;
  run put (set_income_text (py_str income)) ;
  do items <- lift (py_iter expenses_list) ;
  do expense_entries <- lift (comprehension items) ;
  run put (set_expense_entries expense_entries) ;
  lift (inl RerunException).

(** The [try] with its two handlers. *)
Definition analyze_document_with_vision (f : uploaded_file) (st : session_state)
  : session_state * outcome :=
  match analyze_body f st with
  | (st', inl (Raise JSONDecodeError)) =>
      (st', Returned (ErrorText retry_message))
  | (st', inl (Raise e)) =>
      (st', Returned (ErrorWithException "An error occurred during document analysis: " e))
  | (st', inl RerunException) => (st', Rerun)
  | (st', inl StopException) => (st', Stopped)
  | (st', inl Unmodelled) => (st', OutsideModel)
  | (st', inr _) => (st', OutsideModel)  (* not reached: the body ends in [st.rerun()] *)
  end.

(** ** Advisor (get_financial_advice, lines 115-123; page_advisor,
    lines 342-373) *)

Definition full_prompt (user_data_text user_query : string) : string :=
  (ADVISOR_SYSTEM_PROMPT ++ newline ++ newline ++ "User's financial data:" ++ newline
   ++ user_data_text ++ newline ++ newline ++ "User's Question: " ++ user_query)%string.

Definition get_financial_advice (user_data_text user_query : string) : string :=
  match GenerativeModel MODEL_NAME with
  | Some text => ("An error occurred: " ++ text)%string
  | None =>
      match generate_content (TextRequest (full_prompt user_data_text user_query)) with
      | OracleText text => text
      | OracleRaises text => ("An error occurred: " ++ text)%string
      end
  end.

Definition greeting (st : session_state) : chat_message :=
  {| msg_role := assistant;
     content := ("Hello " ++ capitalize (name st)
                 ++ "! I'm Financify. How can I help you with your finances today?")%string |}.

Definition history (st : session_state) : list chat_message :=
  match chat_history st with Some h => h | None => [] end.

Definition processing (st : session_state) : bool :=
  match processing_response st with Some b => b | None => false end.

Definition append_message (m : chat_message) (st : session_state) : session_state :=
  set_chat_history (history st ++ [m]) st.

Definition expenses_text (st : session_state) : string :=
  String.concat ", "
    (map (fun e => (category e ++ ": " ++ str_float (amount e))%string) (expense_entries st)).

Definition user_data (st : session_state) : string :=
  ("Income: " ++ str_float (income st) ++ newline ++ "Expenses: " ++ expenses_text st)%string.

(** The value of [st.chat_input] counts as given when it is a non-empty
    string. *)
Definition query_given (user_query : option string) : bool :=
  match user_query with
  | Some q => negb (String.eqb q "")
  | None => false
  end.

Definition get_state (st : session_state) : session_state * result session_state := (st, inr st).

(** Lines 346-349. *)
Definition init_chat_history (st : session_state) : session_state :=
  match chat_history st with
  | None => set_chat_history [greeting st] st
  | Some _ => st
  end.

Definition init_processing_response (st : session_state) : session_state :=
  match processing_response st with
  | None => set_processing_response false st
  | Some _ => st
  end.

(** [chat_history[-1]["content"]] *)
Definition last_content (h : list chat_message) : result string :=
  match List.last (map Some h) None with
  | Some m => inr (content m)
  | None => raise IndexError
  end.

(** One run of the page; [inr tt] is a normal return. *)
Definition page_advisor (user_query : option string) : M unit :=
  do st0 <- get_state ;
  if negb (truthy_float (income st0)) then ret tt
  else
    run put init_chat_history ;
    run put init_processing_response ;
    do st1 <- get_state ;
    if query_given user_query && negb (processing st1) then
      run put (append_message {| msg_role := user;
                                 content := match user_query with Some q => q | None => "" end |}) ;
      run put (set_processing_response true) ;
      lift (inl RerunException)
    else if processing st1 then
      do last_user_query <- lift (last_content (history st1)) ;
      let advice := get_financial_advice (user_data st1) last_user_query in
      run put (append_message {| msg_role := assistant; content := advice |}) ;
      run put (set_processing_response false) ;
      lift (inl RerunException)
    else ret tt.

(** A user turn: the run in which the question is submitted, and the
    run that follows its [st.rerun()], where the chat input is empty
    again. *)
Definition user_turn (user_query : string) (st : session_state)
  : session_state * result unit :=
  match page_advisor (Some user_query) st with
  | (st', inl RerunException) => page_advisor None st'
  | r => r
  end.

Definition init_advisor (st : session_state) : session_state :=
  init_processing_response (init_chat_history st).

(** The oracle call for a prompt fails with an exception of text [err]. *)
Definition oracle_fails (prompt err : string) : Prop :=
  GenerativeModel MODEL_NAME = Some err \/
  GenerativeModel MODEL_NAME = None /\
  generate_content (TextRequest prompt) = OracleRaises err.

(** The history a run of the page starts from. *)
Definition shown_history (st : session_state) : list chat_message :=
  match chat_history st with
  | Some h => h
  | None => [greeting st]
  end.

(** The oracle is reached and answers [text]. *)
Definition oracle_answers (f : uploaded_file) (text : string) : Prop :=
  GenerativeModel MODEL_NAME = None /\
  String.prefix "image/" (file_type f) = true /\
  image_open_error f = None /\
  generate_content (VisionRequest DOCUMENT_ANALYSIS_PROMPT f) = OracleText text.

End Oracle.

(** ** Fin-Bites quiz (page_fin_bites, lines 641-773) *)

Record quiz_question := {
  question : string;
  options : list string;
  answer : string
}.

Record lesson := {
  creator : string;
  image_url : string;
  audio_url : string;
  quiz : list quiz_question
}.

(** Lines 641-669. *)
Definition fin_bites_lessons : list (string * lesson) :=
  [ ("Chapter 1: Needs vs Wants",
     {| creator := "Sourced from RBI Publications";
        image_url := "thumb.png";
        audio_url := "chap.mp3";
        quiz :=
          [ {| question := "What does compounding primarily rely on?";
               options := ["Initial investment only"; "Reinvesting earnings";
                           "Market volatility"; "Frequent withdrawals"];
               answer := "Reinvesting earnings" |};
            {| question := "The 'Rule of 72' helps estimate...";
               options := ["Monthly budget"; "Tax liability";
                           "Time to double money"; "Credit score"];
               answer := "Time to double money" |} ] |});
    ("Understanding Mutual Funds",
     {| creator := "Sourced from RBI Publications";
        image_url := "https://images.unsplash.com/photo-1624953587687-e271b715985e?q=80&w=870&auto=format&fit=crop";
        audio_url := "https://www.soundhelix.com/examples/mp3/SoundHelix-Song-2.mp3";
        quiz :=
          [ {| question := "What does 'diversification' in a mutual fund mean?";
               options := ["Investing in only one stock";
                           "Spreading investments across various assets";
                           "Only investing in gold"; "Avoiding the stock market"];
               answer := "Spreading investments across various assets" |};
            {| question := "What is a 'Systematic Investment Plan' (SIP)?";
               options := ["A one-time lump sum investment"; "A plan to sell all stocks";
                           "Investing a fixed amount regularly"; "A type of insurance"];
               answer := "Investing a fixed amount regularly" |} ] |});
    ("Basics of Tax Saving",
     {| creator := "Sourced from RBI Publications";
        image_url := "https://images.unsplash.com/photo-1554224155-1696413565d3?q=80&w=870&auto=format&fit=crop";
        audio_url := "https://www.soundhelix.com/examples/mp3/SoundHelix-Song-3.mp3";
        quiz :=
          [ {| question := "Which is a popular tax-saving instrument under Section 80C in India?";
               options := ["Savings Account"; "Public Provident Fund (PPF)";
                           "Credit Card points"; "A foreign currency account"];
               answer := "Public Provident Fund (PPF)" |};
            {| question := "ELSS funds have a lock-in period of how many years?";
               options := ["1 year"; "3 years"; "5 years"; "10 years"];
               answer := "3 years" |} ] |}) ]%string.

(** The four session keys of the page, as they are after the
    initialisation of lines 672-679.  [current_question] starts at 0 and
    is only decremented when it is not 0 (line 761), so it is a natural
    number. *)
Record quiz_state := {
  selected_lesson : string;
  show_quiz : bool;
  current_question : nat;
  user_answers : gmap nat string
}.

Inductive button :=
| LessonButton (i : nat)
| QuizButton
| CloseButton
| PreviousButton
| SubmitNextButton.

(** The widget values of one run: what [st.radio] returns for the
    question on display, and the button that was clicked, if any. *)
Record widgets := {
  user_choice : option string;
  clicked : option button
}.

Inductive quiz_view :=
| NoDialog
| QuestionView (q_idx : nat)
| Completed (score : nat).

(** [enumerate(l)] *)
Definition enumerate {A} (l : list A) : list (nat * A) :=
  combine (seq 0 (length l)) l.

(** Line 743. *)
Definition quiz_score (quiz_questions : list quiz_question) (answers : gmap nat string) : nat :=
  length (List.filter
            (fun iq => bool_decide (answers !! fst iq = Some (answer (snd iq))))
            (enumerate quiz_questions)).

Definition set_show_quiz (b : bool) (st : quiz_state) : quiz_state :=
  {| selected_lesson := selected_lesson st; show_quiz := b;
     current_question := current_question st; user_answers := user_answers st |}.

Definition set_current_question (n : nat) (st : quiz_state) : quiz_state :=
  {| selected_lesson := selected_lesson st; show_quiz := show_quiz st;
     current_question := n; user_answers := user_answers st |}.

Definition set_user_answers (a : gmap nat string) (st : quiz_state) : quiz_state :=
  {| selected_lesson := selected_lesson st; show_quiz := show_quiz st;
     current_question := current_question st; user_answers := a |}.

(** The dialog (lines 742-773).  A disabled button never reports a click. *)
Definition quiz_dialog (quiz_questions : list quiz_question) (w : widgets) (st : quiz_state)
  : quiz_state * quiz_view :=
  if (length quiz_questions <=? current_question st)%nat then
    let score := quiz_score quiz_questions (user_answers st) in
    match clicked w with
    | Some CloseButton => (set_show_quiz false st, Completed score)
    | _ => (st, Completed score)
    end
  else
    let q_idx := current_question st in
    match clicked w with
    | Some PreviousButton =>
        if (q_idx =? 0)%nat then (st, QuestionView q_idx)
        else (set_current_question (current_question st - 1) st, QuestionView q_idx)
    | Some SubmitNextButton =>
        match user_choice w with
        | None => (st, QuestionView q_idx)
        | Some choice =>
            (set_current_question (current_question st + 1)
               (set_user_answers (<[q_idx := choice]> (user_answers st)) st),
             QuestionView q_idx)
        end
    | _ => (st, QuestionView q_idx)
    end.

Fixpoint lookup_lesson (lessons : list (string * lesson)) (title : string) : option lesson :=
  match lessons with
  | [] => None
  | (t, l) :: lessons' => if String.eqb t title then Some l else lookup_lesson lessons' title
  end.

(** Opening a lesson (lines 692-697) or the quiz (lines 721-725). *)
Definition reset_quiz (title : string) (show : bool) : quiz_state :=
  {| selected_lesson := title; show_quiz := show;
     current_question := 0; user_answers := ∅ |}.

(** One run of the page; [None] when [fin_bites_lessons[selected_lesson]]
    raises [KeyError]. *)
Definition page_fin_bites (lessons : list (string * lesson)) (w : widgets) (st : quiz_state)
  : option (quiz_state * quiz_view) :=
  match match clicked w with
        | Some (LessonButton i) => nth_error lessons i
        | _ => None
        end with
  | Some (lesson_title, _) => Some (reset_quiz lesson_title false, NoDialog)
  | None =>
      match lookup_lesson lessons (selected_lesson st) with
      | None => None
      | Some lesson_data =>
          let quiz_questions := quiz lesson_data in
          match clicked w with
          | Some QuizButton => Some (reset_quiz (selected_lesson st) true, NoDialog)
          | _ =>
              if show_quiz st then Some (quiz_dialog quiz_questions w st)
              else Some (st, NoDialog)
          end
      end
  end.

(** Successive runs of the dialog, and the largest question index seen
    on the way. *)
Definition quiz_step (quiz_questions : list quiz_question) (st : quiz_state) (w : widgets)
  : quiz_state :=
  fst (quiz_dialog quiz_questions w st).

Definition quiz_run (quiz_questions : list quiz_question) (ws : list widgets) (st : quiz_state)
  : quiz_state :=
  fold_left (quiz_step quiz_questions) ws st.

Fixpoint furthest (quiz_questions : list quiz_question) (ws : list widgets) (st : quiz_state)
  : nat :=
  match ws with
  | [] => current_question st
  | w :: ws' =>
      Nat.max (current_question st) (furthest quiz_questions ws' (quiz_step quiz_questions st w))
  end.

(** ** Definitions used to state the properties *)

Definition entry_pair (e : expense_entry) : string * Q := (category e, amount e).

(** What both pages compute from the state. *)
Record ledger_totals (st : session_state) (total balance : Q) : Prop := {
  lt_total : total = py_sum (map snd (expenses_data (expense_entries st)));
  lt_balance : balance = income st - total;
  lt_keys : List.NoDup (map fst (expenses_data (expense_entries st)));
  lt_last : forall c, dict_get (expenses_data (expense_entries st)) c
                      = last_amount c (expense_entries st);
  lt_distinct :
    List.NoDup (map category (expense_entries st)) ->
    total = py_sum (map amount (expense_entries st)) /\
    balance = income st - py_sum (map amount (expense_entries st))
}.

(** Orders and selection by key, for the sort. *)
Definition le_key {A} (key : A -> Q) (a b : A) : Prop := key a <= key b.
Definition ge_key {A} (key : A -> Q) (a b : A) : Prop := key b <= key a.
Definition has_key {A} (key : A -> Q) (v : Q) (a : A) : bool := Qeq_bool (key a) v.

(** [sub] occurs in [s]. *)
Definition contains (s sub : string) : Prop :=
  exists pre post, s = (pre ++ sub ++ post)%string.

(** The answer recorded for question [i] is the correct one / is a wrong
    one. *)
Definition correct_at (qs : list quiz_question) (answers : gmap nat string) (i : nat) : bool :=
  match nth_error qs i, answers !! i with
  | Some q, Some c => String.eqb c (answer q)
  | _, _ => false
  end.

Definition wrong_at (qs : list quiz_question) (answers : gmap nat string) (i : nat) : bool :=
  match nth_error qs i, answers !! i with
  | Some q, Some c => negb (String.eqb c (answer q))
  | _, _ => false
  end.

(** The number of question indices that satisfy [p]. *)
Definition count_indices (qs : list quiz_question) (p : nat -> bool) : nat :=
  length (List.filter p (seq 0 (length qs))).

Definition two_questions : list quiz_question :=
  [ {| question := "First?"; options := ["A"; "B"; "C"]; answer := "A" |};
    {| question := "Second?"; options := ["A"; "B"; "C"]; answer := "B" |} ]%string.

Definition next_with (choice : option string) : widgets :=
  {| user_choice := choice; clicked := Some SubmitNextButton |}.

Definition ledger_state (inc : Q) (entries : list expense_entry) : session_state :=
  {| name := "User"; income := inc; income_text := None;
     expense_entries := entries; chat_history := None;
     processing_response := None |}.

(** Examples for the extraction: the response of the specification's
    example, fenced, and an environment that answers it. *)

Definition dq : string := String (ascii_of_nat 34) EmptyString.

Definition quoted (s : string) : string := (dq ++ s ++ dq)%string.

Definition example_body : string :=
  ("{" ++ quoted "income" ++ ":50000," ++ quoted "expenses" ++ ":[{"
   ++ quoted "category" ++ ":" ++ quoted "Rent" ++ "," ++ quoted "amount" ++ ":15000},{"
   ++ quoted "category" ++ ":" ++ quoted "" ++ "," ++ quoted "amount" ++ ":500},{"
   ++ quoted "category" ++ ":" ++ quoted "Gift" ++ "," ++ quoted "amount" ++ ":0}]}")%string.

Definition example_text : string :=
  ("```json" ++ newline ++ example_body ++ newline ++ "```")%string.

Definition example_items : list json :=
  [ JObj [("category", JStr "Rent"); ("amount", JNum 15000)];
    JObj [("category", JStr ""); ("amount", JNum 500)];
    JObj [("category", JStr "Gift"); ("amount", JNum 0)] ]%string.

Definition example_data : json :=
  JObj [("income", JNum 50000); ("expenses", JArr example_items)]%string.

(** A loader that knows the example and rejects every other text. *)
Definition example_loads (s : string) : option json :=
  if String.eqb s (newline ++ example_body ++ newline) then Some example_data else None.

Definition example_file : uploaded_file :=
  {| file_type := "image/png"; image_open_error := None |}.

Definition example_analyze (reply : string) :=
  analyze_document_with_vision "extract" (fun _ => None) (fun _ => OracleText reply)
    example_loads (fun _ => None) (fun _ => "50000"%string) example_file.

Definition rent_15000 : expense_entry := {| category := "Rent"; amount := 15000 |}.

(** What line 157 keeps of an item of the expected shape: the entry of an
    item whose category is a string other than the empty one and whose
    amount is a positive number.  The category is not stripped: one made of
    white space only is not empty, and is kept. *)
Definition kept_entry (item : json) : option expense_entry :=
  match item with
  | JObj fields =>
      match assoc fields "category", assoc fields "amount" with
      | Some (JStr c), Some (JNum a) =>
          if negb (String.eqb c "") && Qlt_bool 0 a
          then Some {| category := c; amount := a |}
          else None
      | _, _ => None
      end
  | _ => None
  end.

Definition kept_entries (items : list json) : list expense_entry := omap kept_entry items.

(** An item as the extraction prompt asks for it, any of its two fields
    possibly missing: an object whose category, when present, is a string or
    null, and whose amount, when present, is a number. *)
Definition well_formed_item (item : json) : bool :=
  match item with
  | JObj fields =>
      match assoc fields "category" with
      | None | Some JNull | Some (JStr _) => true
      | _ => false
      end &&
      match assoc fields "amount" with
      | None | Some (JNum _) => true
      | _ => false
      end
  | _ => false
  end.

(** The income and the items of a response of the expected shape. *)
Definition response_shape (data : json) (inc : Q) (items : list json) : Prop :=
  exists fields,
    data = JObj fields /\
    (assoc fields "income" = Some (JNum inc) \/
     assoc fields "income" = None /\ inc = 0) /\
    (assoc fields "expenses" = Some (JArr items) \/
     assoc fields "expenses" = None /\ items = []) /\
    forallb well_formed_item items = true.

(** ** Further parts of the pages *)

(** *** Home page: target income card (lines 308-309) *)

Definition progress_to_target (income : Q) : Z :=
  let target_income := income * (12 # 10) in
  if Qlt_bool 0 target_income then py_int ((income / target_income) * 100) else 100%Z.

(** *** Insights page: budget card (lines 428-439) *)

(** [min(x, y)]: the first argument unless the second is smaller. *)
Definition py_min (x y : Q) : Q := if Qlt_bool y x then y else x.

Definition spent_percentage (income total_expenses : Q) : Q :=
  let budget_goal := income * (8 # 10) in
  if Qlt_bool 0 budget_goal then total_expenses / budget_goal * 100 else 0.

(** The width of the progress bar, in percent (line 439). *)
Definition spent_bar_width (income total_expenses : Q) : Q :=
  py_min (spent_percentage income total_expenses) 100.

(** *** Insights page: legend (lines 452, 480-483) *)

Definition colors : list string :=
  ["#6a6aff"; "#FF6347"; "#32CD32"; "#FFD700"; "#4682B4"; "#9370DB"]%string.

Record legend_row := {
  lr_color : string;
  lr_category : string;
  lr_amount : Q;
  lr_percentage : Q
}.

Definition legend_percentage (total_expenses amount : Q) : Q :=
  if Qlt_bool 0 total_expenses then (amount / total_expenses) * 100 else 0.

Definition legend (sorted_expenses : dict) (total_expenses : Q) : list legend_row :=
  map (fun row =>
         {| lr_color := nth (fst row mod length colors) colors ""%string;
            lr_category := fst (snd row);
            lr_amount := snd (snd row);
            lr_percentage := legend_percentage total_expenses (snd (snd row)) |})
      (enumerate sorted_expenses).

(** *** Insights page: the tips text (line 492) *)

Definition format_tips (tips_content : string) : string :=
  py_replace "**" "" (py_replace "###" "#####" tips_content).

(** [sub] occurs in [s], as a test. *)
Fixpoint occurs (sub s : string) : bool :=
  String.prefix sub s ||
  match s with
  | EmptyString => false
  | String _ s' => occurs sub s'
  end.

(** The string of [k] characters [c], and the number of characters [c] a
    string starts with. *)
Fixpoint repeat_char (c : ascii) (k : nat) : string :=
  match k with
  | O => EmptyString
  | S k' => String c (repeat_char c k')
  end.

Fixpoint leading (c : ascii) (s : string) : nat :=
  match s with
  | EmptyString => O
  | String a s' => if Ascii.eqb a c then S (leading c s') else O
  end.

Fixpoint has_char (c : ascii) (s : string) : bool :=
  match s with
  | EmptyString => false
  | String a s' => Ascii.eqb a c || has_char c s'
  end.

(** *** Insights text (get_insights_content, lines 125-133) *)

Section Insights.

Variable INSIGHTS_PROMPT : string.
Variable GenerativeModel : string -> option string.
Variable generate_content : request -> oracle_result.

Definition get_insights_content : string :=
  match GenerativeModel MODEL_NAME with
  | Some text => ("An error occurred while fetching insights: " ++ text)%string
  | None =>
      match generate_content (TextRequest INSIGHTS_PROMPT) with
      | OracleText text => text
      | OracleRaises text => ("An error occurred while fetching insights: " ++ text)%string
      end
  end.

(** [@st.cache_data]: the value returned by the first call is stored and
    returned by the later ones, without running the body again. *)
Definition cached_insights_content (cache : option string) : string * option string :=
  match cache with
  | Some value => (value, cache)
  | None => let value := get_insights_content in (value, Some value)
  end.

End Insights.

(** *** Add page (page_add, lines 504-551) *)

(** The widget values of one run of the page.  [text_input i v] and
    [number_input i v] are what the category and amount boxes of row [i]
    return when they are created with value [v]. *)
Record add_widgets := {
  income_input : Q;
  text_input : nat -> string -> string;
  number_input : nat -> Q -> Q;
  submitted : bool;
  add_clicked : bool;
  uploaded : option uploaded_file;
  analyze_clicked : bool
}.

Inductive add_ending :=
| AddReturn
| AddRerun
| AddAnalyze (o : outcome).

(** The loop of lines 520-523 writes the widget values into the rows. *)
Definition render_rows (w : add_widgets) (entries : list expense_entry) : list expense_entry :=
  map (fun row => {| category := text_input w (fst row) (category (snd row));
                     amount := number_input w (fst row) (amount (snd row)) |})
      (enumerate entries).

(** The condition of line 531. *)
Definition valid_entry (e : expense_entry) : bool :=
  negb (String.eqb (py_strip (category e)) "") && Qlt_bool 0 (amount e).

Definition blank_row : expense_entry := {| category := ""; amount := 0 |}.

Section AddPage.

Variable DOCUMENT_ANALYSIS_PROMPT : string.
Variable GenerativeModel : string -> option string.
Variable generate_content : request -> oracle_result.
Variable json_loads : string -> option json.
Variable float_of_string : string -> option Q.
Variable py_str : json -> string.

(** Lines 539-551: the button under the form, then the upload tab. *)
Definition add_page_rest (w : add_widgets) (st : session_state)
  : session_state * add_ending :=
  if add_clicked w then
    (set_expense_entries (expense_entries st ++ [blank_row]) st, AddRerun)
  else
    match uploaded w with
    | Some f =>
        if analyze_clicked w then
          let (st', o) :=
            analyze_document_with_vision DOCUMENT_ANALYSIS_PROMPT GenerativeModel
              generate_content json_loads float_of_string py_str f st in
          (st', AddAnalyze o)
        else (st, AddReturn)
    | None => (st, AddReturn)
    end.

(** One run of the page: the new state, whether the "at least one valid
    expense" warning was shown, and how the run ended. *)
Definition page_add (w : add_widgets) (st : session_state)
  : session_state * (bool * add_ending) :=
  let st1 := set_expense_entries (render_rows w (expense_entries st)) st in
  if submitted w then
    let st2 := set_income (income_input w) st1 in
    let valid_entries := List.filter valid_entry (expense_entries st2) in
    match valid_entries with
    | [] => let (st3, e) := add_page_rest w st2 in (st3, (true, e))
    | _ => (set_expense_entries valid_entries st2, (false, AddRerun))
    end
  else
    let (st3, e) := add_page_rest w st1 in (st3, (false, e)).

End AddPage.

(** Widgets that return the values they are created with, showing the
    stored income: the form as it is before the user changes anything. *)
Definition unchanged_form (st : session_state) (submit : bool) : add_widgets :=
  {| income_input := income st;
     text_input := fun _ v => v;
     number_input := fun _ v => v;
     submitted := submit;
     add_clicked := false;
     uploaded := None;
     analyze_clicked := false |}.

(** *** Fin-Bites page: first run and successive runs *)

(** Lines 672-679 on a fresh session: the first lesson of the catalog. *)
Definition initial_quiz_state (lessons : list (string * lesson)) : option quiz_state :=
  match lessons with
  | (title, _) :: _ => Some (reset_quiz title false)
  | [] => None
  end.

(** Successive runs of the page; [None] as soon as one raises. *)
Fixpoint fin_bites_runs (lessons : list (string * lesson)) (ws : list widgets)
  (st : quiz_state) : option quiz_state :=
  match ws with
  | [] => Some st
  | w :: ws' =>
      match page_fin_bites lessons w st with
      | Some (st', _) => fin_bites_runs lessons ws' st'
      | None => None
      end
  end.

(** *** Further examples *)

(** A form in which the user has typed an income and rows. *)
Definition typed_form (inc : Q) (rows : list (string * Q)) (submit : bool) : add_widgets :=
  {| income_input := inc;
     text_input := fun i _ => fst (nth i rows (""%string, 0));
     number_input := fun i _ => snd (nth i rows (""%string, 0));
     submitted := submit;
     add_clicked := false;
     uploaded := None;
     analyze_clicked := false |}.

Definition example_add :=
  page_add "extract" (fun _ => None) (fun _ => OracleText example_text)
    example_loads (fun _ => None) (fun _ => "50000"%string).

(** A response whose only item has an amount that is not a number. *)
Definition bad_amount_data : json :=
  JObj [("income", JNum 50000);
        ("expenses", JArr [JObj [("category", JStr "Rent"); ("amount", JStr "abc")]])]%string.

Definition pdf_file : uploaded_file :=
  {| file_type := "application/pdf"; image_open_error := None |}.

(** A response of the expected shape whose second item has a category
    made of three spaces, and an environment that answers it. *)
Definition white_space_entry : expense_entry := {| category := "   "; amount := 500 |}.

Definition white_space_body : string :=
  ("{" ++ quoted "income" ++ ":50000," ++ quoted "expenses" ++ ":[{"
   ++ quoted "category" ++ ":" ++ quoted "Rent" ++ "," ++ quoted "amount" ++ ":15000},{"
   ++ quoted "category" ++ ":" ++ quoted "   " ++ "," ++ quoted "amount" ++ ":500}]}")%string.

Definition white_space_items : list json :=
  [ JObj [("category", JStr "Rent"); ("amount", JNum 15000)];
    JObj [("category", JStr "   "); ("amount", JNum 500)] ]%string.

Definition white_space_data : json :=
  JObj [("income", JNum 50000); ("expenses", JArr white_space_items)]%string.

Definition white_space_loads (s : string) : option json :=
  if String.eqb s white_space_body then Some white_space_data else None.

Definition white_space_analyze :=
  analyze_document_with_vision "extract" (fun _ => None) (fun _ => OracleText white_space_body)
    white_space_loads (fun _ => None) (fun _ => "50000"%string) example_file.

(** * Properties *)

(** ** Comparisons *)

Lemma Qlt_bool_iff x y : Qlt_bool x y = true <-> x < y.
Proof.
  unfold Qlt_bool. rewrite negb_true_iff. split.
  - intros H. apply Qnot_le_lt. intros Hle.
    apply Qle_bool_iff in Hle. congruence.
  - intros H. destruct (Qle_bool y x) eqn:E; [|reflexivity].
    apply Qle_bool_iff in E. exfalso. exact (Qlt_not_le _ _ H E).
Qed.

Lemma Qlt_bool_false_iff x y : Qlt_bool x y = false <-> y <= x.
Proof.
  unfold Qlt_bool. rewrite negb_false_iff. apply Qle_bool_iff.
Qed.

(** ** The expense dict *)

Lemma dict_get_set d k v c :
  dict_get (dict_set d k v) c = if String.eqb k c then Some v else dict_get d c.
Proof.
  induction d as [|[k' v'] d IH]; simpl.
  - reflexivity.
  - destruct (String.eqb_spec k' k) as [->|Hne]; simpl.
    + destruct (String.eqb k c); reflexivity.
    + rewrite IH. destruct (String.eqb_spec k' c) as [->|Hne'].
      * destruct (String.eqb_spec k c) as [->|_]; [contradiction|reflexivity].
      * reflexivity.
Qed.

Lemma dict_set_keys d k v :
  map fst (dict_set d k v) =
  if existsb (String.eqb k) (map fst d) then map fst d else map fst d ++ [k].
Proof.
  induction d as [|[k' v'] d IH]; simpl.
  - reflexivity.
  - rewrite (String.eqb_sym k k').
    destruct (String.eqb k' k); simpl.
    + reflexivity.
    + rewrite IH. destruct (existsb _ _); reflexivity.
Qed.

Lemma existsb_eqb_In k (l : list string) :
  existsb (String.eqb k) l = true <-> In k l.
Proof.
  rewrite existsb_exists. split.
  - intros [x [Hin Heq]]. apply String.eqb_eq in Heq. now subst.
  - intros Hin. exists k. split; [assumption|apply String.eqb_refl].
Qed.

Lemma dict_set_NoDup d k v :
  List.NoDup (map fst d) -> List.NoDup (map fst (dict_set d k v)).
Proof.
  intros Hnd. rewrite dict_set_keys.
  destruct (existsb (String.eqb k) (map fst d)) eqn:E; [assumption|].
  apply NoDup_rev in Hnd. rewrite <- (rev_involutive (_ ++ _)).
  apply NoDup_rev. rewrite rev_app_distr. simpl. constructor; [|assumption].
  rewrite <- in_rev. intros Hin. apply existsb_eqb_In in Hin. congruence.
Qed.

Lemma dict_set_fresh d k v :
  ~ In k (map fst d) -> dict_set d k v = d ++ [(k, v)].
Proof.
  induction d as [|[k' v'] d IH]; simpl; intros Hnin.
  - reflexivity.
  - destruct (String.eqb_spec k' k) as [->|Hne].
    + exfalso. apply Hnin. now left.
    + rewrite IH; [reflexivity|]. intros Hin. apply Hnin. now right.
Qed.

Lemma expenses_data_from_NoDup entries d :
  List.NoDup (map fst d ++ map category entries) ->
  fold_left (fun d e => dict_set d (category e) (amount e)) entries d
  = d ++ map entry_pair entries.
Proof.
  revert d. induction entries as [|e entries IH]; simpl; intros d Hnd.
  - now rewrite app_nil_r.
  - assert (Hfresh : ~ In (category e) (map fst d)).
    { intros Hin. apply NoDup_remove_2 in Hnd. apply Hnd.
      apply in_or_app. now left. }
    rewrite (dict_set_fresh _ _ _ Hfresh). rewrite IH.
    + rewrite <- app_assoc. reflexivity.
    + rewrite map_app. simpl. rewrite <- app_assoc. exact Hnd.
Qed.

Lemma expenses_data_NoDup_entries entries :
  List.NoDup (map category entries) -> expenses_data entries = map entry_pair entries.
Proof.
  intros Hnd. unfold expenses_data.
  now rewrite expenses_data_from_NoDup.
Qed.

Lemma expenses_data_keys_NoDup entries : List.NoDup (map fst (expenses_data entries)).
Proof.
  unfold expenses_data.
  assert (H : forall d, List.NoDup (map fst d) ->
    List.NoDup (map fst (fold_left (fun d e => dict_set d (category e) (amount e)) entries d))).
  { induction entries as [|e entries IH]; simpl; intros d Hd.
    - assumption.
    - apply IH. now apply dict_set_NoDup. }
  apply H. constructor.
Qed.

Lemma expenses_data_last entries c :
  dict_get (expenses_data entries) c = last_amount c entries.
Proof.
  unfold expenses_data, last_amount.
  assert (H : forall d acc, dict_get d c = acc ->
    dict_get (fold_left (fun d e => dict_set d (category e) (amount e)) entries d) c
    = fold_left (fun acc e => if String.eqb (category e) c then Some (amount e) else acc)
        entries acc).
  { induction entries as [|e entries IH]; simpl; intros d acc Hd.
    - assumption.
    - apply IH. rewrite dict_get_set, Hd. reflexivity. }
  now apply H.
Qed.

Lemma ledger_totals_intro st :
  let total := py_sum (map snd (expenses_data (expense_entries st))) in
  ledger_totals st total (income st - total).
Proof.
  intros total. split.
  - reflexivity.
  - reflexivity.
  - apply expenses_data_keys_NoDup.
  - apply expenses_data_last.
  - intros Hnd. subst total.
    rewrite (expenses_data_NoDup_entries _ Hnd), map_map. simpl. split; reflexivity.
Qed.

Lemma page_home_Some st v :
  page_home st = Some v ->
  truthy_float (income st) = true /\
  hv_income v = income st /\
  hv_total_expenses v = py_sum (map snd (expenses_data (expense_entries st))) /\
  hv_balance v = income st - hv_total_expenses v /\
  hv_savings_pct v =
    Z.max 0 (if Qlt_bool 0 (income st)
             then py_int (hv_balance v / income st * 100) else 0%Z).
Proof.
  unfold page_home. destruct (truthy_float (income st)); simpl; [|discriminate].
  intros [= <-]. simpl. repeat split; reflexivity.
Qed.

Lemma page_insights_Some st v :
  page_insights st = Some v ->
  truthy_float (income st) = true /\
  expense_entries st <> [] /\
  iv_total_expenses v = py_sum (map snd (expenses_data (expense_entries st))) /\
  iv_balance v = income st - iv_total_expenses v /\
  iv_savings_rate v =
    (if Qlt_bool 0 (income st) then iv_balance v / income st * 100 else 0) /\
  iv_risk_profile v = risk_bucket (iv_savings_rate v) /\
  iv_sorted_expenses v = sorted_expenses (expenses_data (expense_entries st)) /\
  iv_labels v = map fst (iv_sorted_expenses v) /\
  iv_values v = map snd (iv_sorted_expenses v).
Proof.
  unfold page_insights. destruct (truthy_float (income st)); simpl; [|discriminate].
  destruct (expense_entries st) as [|e es] eqn:E; simpl; [discriminate|].
  intros [= <-]. simpl. repeat split; try reflexivity. discriminate.
Qed.

(** C1 (as amended).  Whenever the Home or the Insights page shows its
    metrics, the total is the sum of the values of the dict built from the
    entries, which holds one amount per category, the last one entered, and
    the balance is the income minus that total.  When no two entries share a
    category, the total is the sum of the amounts of the list and the
    balance is the income minus that sum. *)
Theorem totals_of_displayed_metrics (st : session_state) :
  (forall v, page_home st = Some v ->
     ledger_totals st (hv_total_expenses v) (hv_balance v)) /\
  (forall v, page_insights st = Some v ->
     ledger_totals st (iv_total_expenses v) (iv_balance v)).
Proof.
  split; intros v Hv.
  - apply page_home_Some in Hv. destruct Hv as (_ & _ & Ht & Hb & _).
    rewrite Hb, Ht. apply ledger_totals_intro.
  - apply page_insights_Some in Hv. destruct Hv as (_ & _ & Ht & Hb & _).
    rewrite Hb, Ht. apply ledger_totals_intro.
Qed.

Lemma totals_of_displayed_metrics_witness :
  let st := ledger_state 50000
              [ {| category := "Rent"; amount := 15000 |};
                {| category := "Food"; amount := 5000 |} ] in
  exists v, page_home st = Some v /\
            hv_total_expenses v = py_sum (map amount (expense_entries st)) /\
            hv_balance v = income st - py_sum (map amount (expense_entries st)).
Proof.
  intros st. destruct (totals_of_displayed_metrics st) as [Hhome _].
  eexists. split; [reflexivity|].
  apply (lt_distinct _ _ _ (Hhome _ eq_refl)).
  repeat constructor; simpl; intuition discriminate.
Defined.

(** C1 as stated fails: two entries with the same category count once. *)
Lemma total_expenses_duplicate_category :
  let st := ledger_state 1000
              [ {| category := "Food"; amount := 100 |};
                {| category := "Food"; amount := 200 |} ] in
  0 <= income st /\
  Forall (fun e => 0 < amount e) (expense_entries st) /\
  exists v, page_home st = Some v /\
            hv_total_expenses v == 200 /\
            ~ hv_total_expenses v == py_sum (map amount (expense_entries st)) /\
            ~ hv_balance v == income st - py_sum (map amount (expense_entries st)).
Proof.
  intros st. split; [discriminate|]. split.
  - repeat constructor.
  - eexists. split; [reflexivity|]. repeat split; vm_compute; discriminate.
Qed.

(** ** Savings percentage *)

Lemma Qnum_nonpos x : x <= 0 <-> (Qnum x <= 0)%Z.
Proof. unfold Qle. simpl. lia. Qed.

Lemma Qnum_neg x : x < 0 <-> (Qnum x < 0)%Z.
Proof. unfold Qlt. simpl. lia. Qed.

Lemma Qnum_pos x : 0 < x <-> (0 < Qnum x)%Z.
Proof. unfold Qlt. simpl. lia. Qed.

Lemma Qnum_nonneg x : 0 <= x <-> (0 <= Qnum x)%Z.
Proof. unfold Qle. simpl. lia. Qed.

Lemma Qnum_rate b i :
  0 < i -> exists p : positive, Qnum (b / i * 100) = (Qnum b * Zpos p)%Z.
Proof.
  intros Hi. apply Qnum_pos in Hi. destruct i as [n d]. simpl in Hi.
  destruct n as [|n|n]; try lia.
  exists (d * 100)%positive. unfold Qdiv, Qinv, Qmult. simpl. lia.
Qed.

Lemma rate_neg b i : 0 < i -> b < 0 -> b / i * 100 < 0.
Proof.
  intros Hi Hb. destruct (Qnum_rate b i Hi) as [p Hp].
  apply Qnum_neg. rewrite Hp. apply Qnum_neg in Hb. nia.
Qed.

Lemma py_int_nonpos x : x <= 0 -> (py_int x <= 0)%Z.
Proof.
  intros Hx. apply Qnum_nonpos in Hx. unfold py_int.
  apply Z.quot_le_upper_bound; lia.
Qed.

Lemma py_int_nonneg x : 0 <= x -> (0 <= py_int x)%Z.
Proof.
  intros Hx. apply Qnum_nonneg in Hx. unfold py_int.
  apply Z.quot_pos; lia.
Qed.

Lemma rate_nonpos b i : 0 < i -> b <= 0 -> b / i * 100 <= 0.
Proof.
  intros Hi Hb. destruct (Qnum_rate b i Hi) as [p Hp].
  apply Qnum_nonpos. rewrite Hp. apply Qnum_nonpos in Hb. nia.
Qed.

Lemma rate_nonneg b i : 0 < i -> 0 <= b -> 0 <= b / i * 100.
Proof.
  intros Hi Hb. destruct (Qnum_rate b i Hi) as [p Hp].
  apply Qnum_nonneg. rewrite Hp. apply Qnum_nonneg in Hb. nia.
Qed.

(** C2 (as amended).  On the Insights page the savings rate is not
    clamped: for a positive income it has the sign of the balance, so a
    negative balance gives a negative rate, and it is 0 when the income is
    not positive.  On the Home page the savings percentage is clamped to at
    least 0 for every income: it is never negative, it is 0 whenever the
    balance is not positive, and 0 when the income is not positive. *)
Theorem savings_percentage_per_page (st : session_state) :
  (forall v, page_insights st = Some v ->
     (0 < income st -> iv_balance v < 0 -> iv_savings_rate v < 0) /\
     (0 < income st -> 0 <= iv_balance v -> 0 <= iv_savings_rate v) /\
     (~ 0 < income st -> iv_savings_rate v = 0)) /\
  (forall v, page_home st = Some v ->
     (0 <= hv_savings_pct v)%Z /\
     (hv_balance v <= 0 -> hv_savings_pct v = 0%Z) /\
     (~ 0 < income st -> hv_savings_pct v = 0%Z)).
Proof.
  split; intros v Hv.
  - apply page_insights_Some in Hv. destruct Hv as (_ & _ & _ & _ & Hr & _).
    rewrite Hr. split; [|split].
    + intros Hi Hb. rewrite (proj2 (Qlt_bool_iff _ _) Hi). now apply rate_neg.
    + intros Hi Hb. rewrite (proj2 (Qlt_bool_iff _ _) Hi). now apply rate_nonneg.
    + intros Hi. destruct (Qlt_bool 0 (income st)) eqn:E; [|reflexivity].
      apply Qlt_bool_iff in E. contradiction.
  - apply page_home_Some in Hv. destruct Hv as (_ & _ & _ & _ & Hp).
    rewrite Hp. split; [|split].
    + apply Z.le_max_l.
    + intros Hb. destruct (Qlt_bool 0 (income st)) eqn:E; [|reflexivity].
      apply Qlt_bool_iff in E.
      pose proof (py_int_nonpos _ (rate_nonpos _ _ E Hb)). lia.
    + intros Hi. destruct (Qlt_bool 0 (income st)) eqn:E; [|reflexivity].
      apply Qlt_bool_iff in E. contradiction.
Qed.

Lemma savings_percentage_per_page_witness :
  let st := ledger_state 1000 [ {| category := "Rent"; amount := 2000 |} ] in
  (exists v, page_insights st = Some v /\ iv_savings_rate v < 0) /\
  (exists v, page_home st = Some v /\ hv_savings_pct v = 0%Z).
Proof.
  intros st. destruct (savings_percentage_per_page st) as [Hins Hhome]. split.
  - eexists. split; [reflexivity|].
    destruct (Hins _ eq_refl) as [H _].
    apply H; reflexivity.
  - eexists. split; [reflexivity|].
    destruct (Hhome _ eq_refl) as (_ & H & _).
    apply H. discriminate.
Defined.

(** C2 as stated fails on the Home page: with a positive income and a
    negative balance the percentage shown is 0, not a negative number. *)
Lemma home_savings_pct_clamped :
  let st := ledger_state 1000 [ {| category := "Rent"; amount := 2000 |} ] in
  exists v, page_home st = Some v /\
            0 < income st /\
            hv_balance v < 0 /\
            py_int (hv_balance v / income st * 100) = (-100)%Z /\
            hv_savings_pct v = 0%Z /\
            ~ (hv_savings_pct v < 0)%Z.
Proof.
  intros st. eexists. split; [reflexivity|].
  repeat split; vm_compute; congruence.
Qed.

(** ** Risk profile *)

(** C3.  The risk profile depends on the savings rate only: below 10 it is
    Aggressive, from 10 inclusive to 25 exclusive Balanced, from 25 on
    Conservative; equal rates give the same profile, and the Insights page
    shows the profile of its savings rate. *)
Theorem risk_bucket_thresholds :
  (forall r, r < 10 -> risk_bucket r = Aggressive) /\
  (forall r, 10 <= r -> r < 25 -> risk_bucket r = Balanced) /\
  (forall r, 25 <= r -> risk_bucket r = Conservative) /\
  (forall r r', r == r' -> risk_bucket r = risk_bucket r') /\
  (forall st v, page_insights st = Some v ->
                iv_risk_profile v = risk_bucket (iv_savings_rate v)).
Proof.
  assert (Hlow : forall r, r < 10 -> risk_bucket r = Aggressive).
  { intros r H. unfold risk_bucket. now rewrite (proj2 (Qlt_bool_iff _ _) H). }
  assert (Hmid : forall r, 10 <= r -> r < 25 -> risk_bucket r = Balanced).
  { intros r H1 H2. unfold risk_bucket.
    rewrite (proj2 (Qlt_bool_false_iff _ _) H1).
    rewrite (proj2 (Qle_bool_iff _ _) H1), (proj2 (Qlt_bool_iff _ _) H2).
    reflexivity. }
  assert (Hhigh : forall r, 25 <= r -> risk_bucket r = Conservative).
  { intros r H. unfold risk_bucket.
    assert (H10 : 10 <= r) by (eapply Qle_trans; [|exact H]; discriminate).
    rewrite (proj2 (Qlt_bool_false_iff _ _) H10).
    rewrite (proj2 (Qlt_bool_false_iff _ _) H).
    now rewrite andb_false_r. }
  repeat split; try assumption.
  - intros r r' Heq.
    destruct (Qlt_le_dec r 10) as [H1|H1].
    + rewrite (Hlow r H1). symmetry. apply Hlow. now rewrite <- Heq.
    + destruct (Qlt_le_dec r 25) as [H2|H2].
      * rewrite (Hmid r H1 H2). symmetry. apply Hmid; now rewrite <- Heq.
      * rewrite (Hhigh r H2). symmetry. apply Hhigh. now rewrite <- Heq.
  - intros st v Hv. apply page_insights_Some in Hv. tauto.
Qed.

Lemma risk_bucket_thresholds_witness :
  risk_bucket (999 # 100) = Aggressive /\
  risk_bucket 10 = Balanced /\
  risk_bucket (2499 # 100) = Balanced /\
  risk_bucket 25 = Conservative /\
  risk_bucket (-50) = Aggressive.
Proof.
  destruct risk_bucket_thresholds as (Hlow & Hmid & Hhigh & _).
  refine (conj _ (conj _ (conj _ (conj _ _)))).
  - apply Hlow. reflexivity.
  - apply Hmid; [discriminate|reflexivity].
  - apply Hmid; [discriminate|reflexivity].
  - apply Hhigh. discriminate.
  - apply Hlow. reflexivity.
Defined.

(** ** Sorting for display *)

Section StableSort.

Context {A : Type} (key : A -> Q).

Lemma insert_by_perm x l : Permutation (x :: l) (insert_by key x l).
Proof.
  induction l as [|y l IH]; simpl.
  - reflexivity.
  - destruct (Qle_bool (key x) (key y)).
    + reflexivity.
    + rewrite perm_swap. now apply perm_skip.
Qed.

Lemma stable_sort_perm l : Permutation l (stable_sort key l).
Proof.
  induction l as [|x l IH]; simpl.
  - reflexivity.
  - rewrite <- insert_by_perm. now apply perm_skip.
Qed.

Lemma insert_by_HdRel y x l :
  (le_key key) y x -> HdRel (le_key key) y l -> HdRel (le_key key) y (insert_by key x l).
Proof.
  intros Hyx Hhd. destruct l as [|z l]; simpl.
  - now constructor.
  - destruct (Qle_bool (key x) (key z)); constructor; [assumption|].
    now inversion Hhd.
Qed.

Lemma insert_by_sorted x l : Sorted (le_key key) l -> Sorted (le_key key) (insert_by key x l).
Proof.
  induction 1 as [|y l Hs IH Hhd]; simpl.
  - repeat constructor.
  - destruct (Qle_bool (key x) (key y)) eqn:E.
    + constructor; [now constructor|]. constructor. now apply Qle_bool_iff.
    + constructor; [assumption|]. apply insert_by_HdRel; [|assumption].
      unfold le_key. apply Qlt_le_weak. apply Qnot_le_lt. intros Hle.
      apply Qle_bool_iff in Hle. congruence.
Qed.

Lemma stable_sort_sorted l : StronglySorted (le_key key) (stable_sort key l).
Proof.
  apply Sorted_StronglySorted.
  - intros a b c. unfold le_key. apply Qle_trans.
  - induction l as [|x l IH]; simpl; [constructor|now apply insert_by_sorted].
Qed.

Lemma StronglySorted_snoc (R : A -> A -> Prop) l a :
  StronglySorted R l -> Forall (fun y => R y a) l -> StronglySorted R (l ++ [a]).
Proof.
  induction 1 as [|b l Hs IH Hall]; simpl; intros Hfa.
  - repeat constructor.
  - inversion Hfa as [|? ? Hba Hla]; subst. constructor.
    + now apply IH.
    + apply Forall_app. split; [assumption|]. now repeat constructor.
Qed.

Lemma StronglySorted_rev l : StronglySorted (le_key key) l -> StronglySorted (ge_key key) (rev l).
Proof.
  induction 1 as [|a l Hs IH Hall]; simpl.
  - constructor.
  - apply StronglySorted_snoc; [assumption|].
    apply Forall_rev. exact Hall.
Qed.

(** Stability: the elements of one key keep their order. *)
Lemma insert_by_stable v x l :
  List.filter (has_key key v) (insert_by key x l) = List.filter (has_key key v) (x :: l).
Proof.
  induction l as [|y l IH]; simpl.
  - reflexivity.
  - destruct (Qle_bool (key x) (key y)) eqn:E; simpl; [reflexivity|].
    rewrite IH. simpl.
    destruct (has_key key v x) eqn:Ex; [|reflexivity].
    destruct (has_key key v y) eqn:Ey; [|reflexivity].
    exfalso. unfold has_key in Ex, Ey.
    apply Qeq_bool_iff in Ex. apply Qeq_bool_iff in Ey.
    assert (Hle : key x <= key y) by (rewrite Ex, Ey; apply Qle_refl).
    apply Qle_bool_iff in Hle. congruence.
Qed.

Lemma stable_sort_stable v l :
  List.filter (has_key key v) (stable_sort key l) = List.filter (has_key key v) l.
Proof.
  induction l as [|x l IH]; simpl.
  - reflexivity.
  - rewrite insert_by_stable. simpl. now rewrite IH.
Qed.

Lemma py_sorted_reverse_spec l :
  Permutation l (py_sorted key true l) /\
  StronglySorted (ge_key key) (py_sorted key true l) /\
  (forall v, List.filter (has_key key v) (py_sorted key true l) = List.filter (has_key key v) l).
Proof.
  unfold py_sorted. repeat split.
  - rewrite <- Permutation_rev, <- stable_sort_perm. apply Permutation_rev.
  - apply StronglySorted_rev, stable_sort_sorted.
  - intros v. rewrite filter_rev, stable_sort_stable, filter_rev.
    apply rev_involutive.
Qed.

End StableSort.



(** ** Document extraction *)
Section ExtractionProofs.

Variable DOCUMENT_ANALYSIS_PROMPT : string.
Variable GenerativeModel : string -> option string.
Variable generate_content : request -> oracle_result.
Variable json_loads : string -> option json.
Variable float_of_string : string -> option Q.
Variable py_str : json -> string.

Local Abbreviation analyze :=
  (analyze_document_with_vision DOCUMENT_ANALYSIS_PROMPT GenerativeModel generate_content
     json_loads float_of_string py_str).
Local Abbreviation oracle_answers :=
  (oracle_answers DOCUMENT_ANALYSIS_PROMPT GenerativeModel generate_content).

Lemma comprehension_step_kept item e :
  comprehension_step float_of_string item = inr (Some e) ->
  category e <> ""%string /\ 0 < amount e.
Proof.
  unfold comprehension_step. destruct item as [| | | |?|fields]; simpl; try discriminate.
  destruct (assoc fields "category") as [c|] eqn:Ec; simpl; [|discriminate].
  destruct (truthy c) eqn:Et; [|discriminate].
  destruct (assoc fields "amount") as [a|] eqn:Ea; simpl.
  - destruct (py_float float_of_string a) as [s|q] eqn:Ef; simpl; [discriminate|].
    destruct (Qlt_bool 0 q) eqn:Elt; [|discriminate].
    destruct c; simpl; try discriminate. intros [= <-]. simpl. split.
    + simpl in Et. intros ->. discriminate.
    + now apply Qlt_bool_iff.
  - discriminate.
Qed.

Lemma comprehension_kept items entries :
  comprehension float_of_string items = inr entries ->
  Forall (fun e => category e <> ""%string /\ 0 < amount e) entries.
Proof.
  revert entries. induction items as [|item items IH]; simpl; intros entries H.
  - injection H as <-. constructor.
  - destruct (comprehension_step float_of_string item) as [s|o] eqn:Es; simpl in H;
      [discriminate|].
    destruct (comprehension float_of_string items) as [s|rest]; simpl in H;
      [discriminate|].
    injection H as <-. specialize (IH rest eq_refl).
    destruct o as [e|]; [|assumption].
    constructor; [|assumption]. now apply (comprehension_step_kept item).
Qed.

Lemma comprehension_step_well_formed item :
  well_formed_item item = true ->
  comprehension_step float_of_string item = inr (kept_entry item).
Proof.
  unfold well_formed_item, comprehension_step, kept_entry.
  destruct item as [| | | |?|fields]; try discriminate. simpl.
  destruct (assoc fields "category") as [c|]; destruct (assoc fields "amount") as [a|];
    try destruct c; try destruct a; simpl; try discriminate; intros _;
    repeat (match goal with
            | |- context [if ?b then _ else _] => destruct b; simpl
            end);
    reflexivity.
Qed.

Lemma comprehension_well_formed items :
  forallb well_formed_item items = true ->
  comprehension float_of_string items = inr (kept_entries items).
Proof.
  induction items as [|item items IH]; simpl; intros H.
  - reflexivity.
  - apply andb_true_iff in H. destruct H as [Hi Hs].
    rewrite (comprehension_step_well_formed _ Hi), (IH Hs). simpl.
    unfold kept_entries. simpl. destruct (kept_entry item); reflexivity.
Qed.

(** The pure steps never ask for a rerun. *)
Lemma py_get_no_rerun obj k d : py_get obj k d <> inl RerunException.
Proof. destruct obj; discriminate. Qed.

Lemma py_float_no_rerun x : py_float float_of_string x <> inl RerunException.
Proof.
  destruct x as [| | |s| |]; simpl; try discriminate.
  destruct (float_of_string s); discriminate.
Qed.

Lemma py_iter_no_rerun obj : py_iter obj <> inl RerunException.
Proof. destruct obj; discriminate. Qed.

Lemma rbind_no_rerun {A B} (r : result A) (k : A -> result B) :
  r <> inl RerunException -> (forall a, k a <> inl RerunException) ->
  rbind r k <> inl RerunException.
Proof.
  intros Hr Hk. destruct r as [s|a]; simpl; [|apply Hk].
  intros [= ->]. now apply Hr.
Qed.

Lemma comprehension_step_no_rerun item :
  comprehension_step float_of_string item <> inl RerunException.
Proof.
  unfold comprehension_step.
  apply rbind_no_rerun; [apply py_get_no_rerun|]. intros c.
  destruct (truthy c); [|discriminate].
  apply rbind_no_rerun; [apply py_get_no_rerun|]. intros a.
  apply rbind_no_rerun; [apply py_float_no_rerun|]. intros a'.
  destruct (Qlt_bool 0 a'); [|discriminate].
  apply rbind_no_rerun; [destruct item; simpl; try discriminate;
                         destruct (assoc _ _); discriminate|]. intros c'.
  apply rbind_no_rerun; [destruct item; simpl; try discriminate;
                         destruct (assoc _ _); discriminate|]. intros a2.
  apply rbind_no_rerun; [apply py_float_no_rerun|]. intros amt.
  apply rbind_no_rerun; [destruct c'; discriminate|]. discriminate.
Qed.

Lemma comprehension_no_rerun items :
  comprehension float_of_string items <> inl RerunException.
Proof.
  induction items as [|item items IH]; simpl; [discriminate|].
  apply rbind_no_rerun; [apply comprehension_step_no_rerun|]. intros o.
  apply rbind_no_rerun; [exact IH|]. discriminate.
Qed.

(** What a successful call did. *)
Lemma analyze_success_inv f st st' :
  analyze f st = (st', Rerun) ->
  exists text data income_j expenses_j inc items entries,
    oracle_answers f text /\
    json_loads (clean_response text) = Some data /\
    py_get data "income" (JNum 0) = inr income_j /\
    py_get data "expenses" (JArr []) = inr expenses_j /\
    py_float float_of_string income_j = inr inc /\
    py_iter expenses_j = inr items /\
    comprehension float_of_string items = inr entries /\
    st' = set_expense_entries entries
            (set_income_text (py_str income_j) (set_income inc st)).
Proof.
  unfold analyze, analyze_document_with_vision, analyze_body, oracle_answers,
    bind, lift, put, open_image, ask_oracle, ret, raise.
  destruct (GenerativeModel MODEL_NAME) eqn:Eg; [discriminate|].
  destruct (String.prefix "image/" (file_type f)) eqn:Ep; [|discriminate].
  destruct (image_open_error f) eqn:Ei; [discriminate|].
  destruct (generate_content _) as [text|text] eqn:Eo; [|discriminate].
  destruct (json_loads (clean_response text)) as [data|] eqn:Ej; [|discriminate].
  destruct (py_get data "income" (JNum 0)) as [s|income_j] eqn:E1.
  { pose proof (py_get_no_rerun data "income" (JNum 0)) as Hn. rewrite E1 in Hn.
    destruct s as [[]| | |]; simpl; try discriminate. congruence. }
  destruct (py_get data "expenses" (JArr [])) as [s|expenses_j] eqn:E2.
  { pose proof (py_get_no_rerun data "expenses" (JArr [])) as Hn. rewrite E2 in Hn.
    destruct s as [[]| | |]; simpl; try discriminate. congruence. }
  destruct (py_float float_of_string income_j) as [s|inc] eqn:E3.
  { pose proof (py_float_no_rerun income_j) as Hn. rewrite E3 in Hn.
    destruct s as [[]| | |]; simpl; try discriminate. congruence. }
  destruct (py_iter expenses_j) as [s|items] eqn:E4.
  { pose proof (py_iter_no_rerun expenses_j) as Hn. rewrite E4 in Hn.
    destruct s as [[]| | |]; simpl; try discriminate. congruence. }
  destruct (comprehension float_of_string items) as [s|entries] eqn:E5.
  { pose proof (comprehension_no_rerun items) as Hn. rewrite E5 in Hn.
    destruct s as [[]| | |]; simpl; try discriminate. congruence. }
  intros [= <-].
  exists text, data, income_j, expenses_j, inc, items, entries. tauto.
Qed.

Lemma analyze_success f st text data inc items :
  oracle_answers f text ->
  json_loads (clean_response text) = Some data ->
  response_shape data inc items ->
  analyze f st =
    (set_expense_entries (kept_entries items)
       (set_income_text (py_str (JNum inc)) (set_income inc st)), Rerun).
Proof.
  intros (Hg & Hp & Hi & Ho) Hj (fields & -> & Hinc & Hexp & Hwf).
  unfold analyze, analyze_document_with_vision, analyze_body,
    bind, lift, put, open_image, ask_oracle, ret, raise.
  rewrite Hg, Hp, Hi, Ho, Hj. simpl.
  assert (Hinc' : match assoc fields "income" with Some v => v | None => JNum 0 end
                  = JNum inc).
  { destruct Hinc as [->|[-> ->]]; reflexivity. }
  assert (Hexp' : match assoc fields "expenses" with Some v => v | None => JArr [] end
                  = JArr items).
  { destruct Hexp as [->|[-> ->]]; reflexivity. }
  rewrite Hinc', Hexp'. simpl.
  rewrite (comprehension_well_formed _ Hwf). reflexivity.
Qed.

(** The filter of line 157 where it does what is intended.  A response
    that parses and whose extraction completes leaves only entries with a
    category other than the empty string and a positive amount.  For a
    response of the expected shape the extraction completes, the income is
    the one given, or 0 when absent, and the entries are exactly those of
    [kept_entries], in their order. *)
Theorem extraction_filters_entries f st text data :
  oracle_answers f text ->
  json_loads (clean_response text) = Some data ->
  (forall st', analyze f st = (st', Rerun) ->
     Forall (fun e => category e <> ""%string /\ 0 < amount e) (expense_entries st')) /\
  (forall inc items, response_shape data inc items ->
     exists st', analyze f st = (st', Rerun) /\
                 income st' = inc /\
                 expense_entries st' = kept_entries items) /\
  (data = example_data ->
     exists st', analyze f st = (st', Rerun) /\
                 income st' = 50000 /\
                 expense_entries st' = [rent_15000]).
Proof.
  intros Hor Hj.
  assert (Hshape : forall inc items, response_shape data inc items ->
     exists st', analyze f st = (st', Rerun) /\
                 income st' = inc /\
                 expense_entries st' = kept_entries items).
  { intros inc items Hshape. eexists. split.
    + now apply (analyze_success f st text data inc items).
    + split; reflexivity. }
  split; [|split; [exact Hshape|]].
  - intros st' Hs. apply analyze_success_inv in Hs.
    destruct Hs as (t & d & ij & ej & inc & items & entries & _ & _ & _ & _ & _ & _ & Hc & ->).
    simpl. now apply comprehension_kept in Hc.
  - intros ->. apply (Hshape 50000 example_items).
    exists [("income", JNum 50000); ("expenses", JArr example_items)]%string.
    repeat split; auto.
Qed.

(** C6.  When the text of the response, once the fences are removed, is
    not valid JSON, the call returns normally after showing the retry
    message and the session state is the one before the call. *)
Theorem invalid_json_leaves_state f st text :
  oracle_answers f text ->
  json_loads (clean_response text) = None ->
  analyze f st = (st, Returned (ErrorText retry_message)).
Proof.
  intros (Hg & Hp & Hi & Ho) Hj.
  unfold analyze, analyze_document_with_vision, analyze_body,
    bind, lift, put, open_image, ask_oracle, ret, raise.
  rewrite Hg, Hp, Hi, Ho, Hj. reflexivity.
Qed.

(** C7 (as amended).  A successful extraction writes its output into
    the session state: the income is the number read from the response, its
    text the text of that value, and the entries are what the comprehension
    of line 157 yields on the items of the response (for a response of the
    expected shape: the given income, or 0, and the kept items).  The other
    keys stay as they were.  These are the keys the dashboard and the
    advisor read: right after the call, with nothing saved, the Home and
    Insights pages show what they show for the extracted income and
    entries, and the advisor is given them as the user's data. *)
Theorem extraction_writes_ledger f st st' :
  analyze f st = (st', Rerun) ->
  name st' = name st /\
  chat_history st' = chat_history st /\
  processing_response st' = processing_response st /\
  (exists text data income_j expenses_j inc items entries,
     generate_content (VisionRequest DOCUMENT_ANALYSIS_PROMPT f) = OracleText text /\
     json_loads (clean_response text) = Some data /\
     py_get data "income" (JNum 0) = inr income_j /\
     py_get data "expenses" (JArr []) = inr expenses_j /\
     py_float float_of_string income_j = inr inc /\
     py_iter expenses_j = inr items /\
     comprehension float_of_string items = inr entries /\
     income st' = inc /\
     income_text st' = Some (py_str income_j) /\
     expense_entries st' = entries /\
     page_home st' = page_home (ledger_state inc entries) /\
     page_insights st' = page_insights (ledger_state inc entries) /\
     (forall str_float,
        user_data str_float st' = user_data str_float (ledger_state inc entries))) /\
  (forall text data inc items,
     oracle_answers f text ->
     json_loads (clean_response text) = Some data ->
     response_shape data inc items ->
     income st' = inc /\
     expense_entries st' = kept_entries items /\
     page_home st' = page_home (ledger_state inc (kept_entries items))).
Proof.
  intros Hs. pose proof Hs as Hinv. apply analyze_success_inv in Hinv.
  destruct Hinv as (text & data & ij & ej & inc & items & entries
                    & (_ & _ & _ & Ho) & Hj & Hi & He & Hf & Hit & Hc & ->).
  split; [reflexivity|]. split; [reflexivity|]. split; [reflexivity|]. split.
  - exists text, data, ij, ej, inc, items, entries. simpl.
    repeat split; assumption.
  - intros text' data' inc' items' Hor Hj' Hshape.
    pose proof (analyze_success f st text' data' inc' items' Hor Hj' Hshape) as Hfw.
    rewrite Hs in Hfw. injection Hfw as Hinc Htxt Hent.
    simpl. rewrite Hinc, Hent. repeat split.
Qed.

End ExtractionProofs.

Lemma example_oracle_answers reply :
  oracle_answers "extract" (fun _ => None) (fun _ => OracleText reply) example_file reply.
Proof. repeat split. Qed.

Lemma extraction_filters_entries_witness :
  exists st', example_analyze example_text (ledger_state 0 []) = (st', Rerun) /\
              income st' = 50000 /\
              expense_entries st' = [rent_15000].
Proof.
  destruct (extraction_filters_entries "extract" (fun _ => None)
              (fun _ => OracleText example_text) example_loads (fun _ => None)
              (fun _ => "50000"%string) example_file (ledger_state 0 [])
              example_text example_data
              (example_oracle_answers example_text) eq_refl) as (_ & _ & H).
  exact (H eq_refl).
Defined.

Lemma invalid_json_leaves_state_witness :
  let st := ledger_state 1000 [rent_15000] in
  example_analyze "Sorry, I cannot read this image." st
  = (st, Returned (ErrorText retry_message)).
Proof.
  intros st.
  exact (invalid_json_leaves_state "extract" (fun _ => None)
           (fun _ => OracleText "Sorry, I cannot read this image."%string)
           example_loads (fun _ => None) (fun _ => "50000"%string) example_file st
           "Sorry, I cannot read this image."%string
           (example_oracle_answers _) eq_refl).
Defined.

Lemma extraction_writes_ledger_witness :
  let st := ledger_state 1000 [ {| category := "Food"; amount := 500 |} ] in
  exists st', example_analyze example_text st = (st', Rerun) /\
              name st' = name st /\
              income st' = 50000 /\
              expense_entries st' = [rent_15000].
Proof.
  intros st. eexists. split; [reflexivity|].
  destruct (extraction_writes_ledger "extract" (fun _ => None)
              (fun _ => OracleText example_text) example_loads (fun _ => None)
              (fun _ => "50000"%string) example_file st _ eq_refl)
    as (Hname & _ & _ & _ & Hshape).
  split; [exact Hname|].
  destruct (Hshape example_text example_data 50000 example_items
              (example_oracle_answers example_text) eq_refl) as (Hinc & Hent & _).
  - exists [("income", JNum 50000); ("expenses", JArr example_items)]%string.
    repeat split; auto.
  - split; [exact Hinc|]. rewrite Hent. reflexivity.
Defined.

(** C7 as stated fails: the extraction alone, with no save, changes the
    income and the entries that the dashboard reads. *)
Lemma extraction_changes_dashboard :
  let st := ledger_state 1000 [ {| category := "Food"; amount := 500 |} ] in
  exists st' v v',
    example_analyze example_text st = (st', Rerun) /\
    page_home st = Some v /\ page_home st' = Some v' /\
    hv_income v == 1000 /\ hv_income v' == 50000 /\
    ~ income st' == income st /\
    expense_entries st' <> expense_entries st /\
    ~ hv_total_expenses v' == hv_total_expenses v.
Proof.
  intros st. eexists _, _, _.
  split; [reflexivity|]. split; [reflexivity|]. split; [reflexivity|].
  repeat split; vm_compute; discriminate.
Qed.

(** C5.  The filter of line 157 tests the category as it comes, without
    stripping it: a response of the expected shape with Rent 15000 and an
    item of 500 whose category is three spaces completes with both entries
    stored, the income read as 50000.  The category of the second entry is
    blank (stripping it leaves nothing), and the save filter of the form,
    line 531, rejects that same entry. *)
Theorem extraction_keeps_white_space_category :
  let st' := fst (white_space_analyze (ledger_state 0 [])) in
  clean_response white_space_body = white_space_body /\
  snd (white_space_analyze (ledger_state 0 [])) = Rerun /\
  income st' = 50000 /\
  expense_entries st' = [rent_15000; white_space_entry] /\
  py_strip (category white_space_entry) = ""%string /\
  valid_entry white_space_entry = false /\
  List.filter valid_entry (expense_entries st') = [rent_15000].
Proof.
  cbv zeta. repeat split.
Qed.


(** ** Advisor *)

Section AdvisorProofs.

Variable ADVISOR_SYSTEM_PROMPT : string.
Variable GenerativeModel : string -> option string.
Variable generate_content : request -> oracle_result.
Variable str_float : Q -> string.
Variable capitalize : string -> string.

Local Abbreviation advice :=
  (get_financial_advice ADVISOR_SYSTEM_PROMPT GenerativeModel generate_content).
Local Abbreviation page :=
  (page_advisor ADVISOR_SYSTEM_PROMPT GenerativeModel generate_content str_float capitalize).
Local Abbreviation turn :=
  (user_turn ADVISOR_SYSTEM_PROMPT GenerativeModel generate_content str_float capitalize).
Local Abbreviation init := (init_advisor capitalize).
Local Abbreviation oracle_fails := (oracle_fails GenerativeModel generate_content).
Local Abbreviation shown_history := (shown_history capitalize).

Lemma append_empty_r (s : string) : (s ++ "")%string = s.
Proof.
  induction s as [|c s IH]; [reflexivity|].
  change (String c (s ++ "")%string = String c s). now rewrite IH.
Qed.

Lemma advice_on_failure data q err :
  oracle_fails (full_prompt ADVISOR_SYSTEM_PROMPT data q) err ->
  advice data q = ("An error occurred: " ++ err)%string.
Proof.
  unfold advice, get_financial_advice. intros [->|[-> ->]]; reflexivity.
Qed.

Lemma last_content_snoc (h : list chat_message) m :
  last_content (h ++ [m]) = inr (content m).
Proof. unfold last_content. rewrite map_app. simpl. now rewrite last_last. Qed.

Lemma init_fields st :
  name (init st) = name st /\ income (init st) = income st /\
  income_text (init st) = income_text st /\
  expense_entries (init st) = expense_entries st /\
  history (init st) = shown_history st /\
  processing (init st) = processing st /\
  chat_history (init st) = Some (shown_history st) /\
  processing_response (init st) = Some (processing st).
Proof.
  destruct st as [nm inc itext entries [h|] [b|]]; repeat split.
Qed.

Lemma init_idempotent st :
  chat_history st <> None -> processing_response st <> None -> init st = st.
Proof.
  destruct st as [nm inc itext entries [h|] [b|]]; simpl; intros H1 H2;
    try contradiction; reflexivity.
Qed.

(** The run in which the question is submitted. *)
Lemma page_advisor_submit st q :
  truthy_float (income st) = true -> q <> ""%string -> processing st = false ->
  page (Some q) st =
    (set_processing_response true
       (append_message {| msg_role := user; content := q |} (init st)),
     inl RerunException).
Proof.
  intros Hinc Hq Hproc.
  unfold page, page_advisor, bind, get_state, put, lift, ret. rewrite Hinc.
  cbn [negb fst snd]. fold (init st).
  destruct (init_fields st) as (_ & _ & _ & _ & _ & Hp & _). rewrite Hp, Hproc.
  unfold query_given.
  destruct (String.eqb_spec q ""); [contradiction|]. reflexivity.
Qed.

(** The run that follows, with an answer pending. *)
Lemma page_advisor_answer st h q :
  truthy_float (income st) = true ->
  chat_history st = Some (h ++ [ {| msg_role := user; content := q |} ]) ->
  processing_response st = Some true ->
  page None st =
    (set_processing_response false
       (append_message {| msg_role := assistant;
                          content := advice (user_data str_float st) q |} st),
     inl RerunException).
Proof.
  intros Hinc Hh Hp.
  unfold page, page_advisor, bind, get_state, put, lift, ret. rewrite Hinc.
  cbn [negb fst snd]. fold (init st).
  rewrite (init_idempotent st) by congruence.
  unfold processing, history. rewrite Hp, Hh. cbn [query_given andb negb].
  rewrite last_content_snoc. reflexivity.
Qed.

(** C8.  A user turn on the advisor page (income entered, a non-empty
    question, no answer pending) raises nothing: it ends in the rerun that
    follows the answer, with the question and one assistant message added
    to the history, the message being what [get_financial_advice]
    returned.  When the oracle call fails, that message is "An error
    occurred: " followed by the text of the error. *)
Theorem advisor_turn_always_answers st q :
  truthy_float (income st) = true ->
  q <> ""%string ->
  processing st = false ->
  let answer := advice (user_data str_float st) q in
  (exists st',
     turn q st = (st', inl RerunException) /\
     chat_history st' =
       Some (shown_history st ++ [ {| msg_role := user; content := q |};
                                   {| msg_role := assistant; content := answer |} ]) /\
     processing_response st' = Some false /\
     income st' = income st /\
     expense_entries st' = expense_entries st) /\
  (forall err,
     oracle_fails (full_prompt ADVISOR_SYSTEM_PROMPT (user_data str_float st) q) err ->
     answer = ("An error occurred: " ++ err)%string /\ contains answer err).
Proof.
  intros Hinc Hq Hproc answer. split.
  - unfold turn, user_turn. fold page.
    rewrite (page_advisor_submit st q Hinc Hq Hproc).
    destruct (init_fields st) as (_ & Hi & _ & He & Hh & _).
    set (st1 := set_processing_response true _).
    assert (Hinc1 : truthy_float (income st1) = true) by (simpl; now rewrite Hi).
    rewrite (page_advisor_answer st1 (shown_history st) q Hinc1);
      [|rewrite <- Hh; reflexivity|reflexivity].
    assert (Hh1 : history st1 = history (init st) ++ [ {| msg_role := user; content := q |} ])
      by reflexivity.
    rewrite Hh in Hh1.
    assert (Hi1 : income st1 = income (init st)) by reflexivity.
    assert (He1 : expense_entries st1 = expense_entries (init st)) by reflexivity.
    assert (Hd : user_data str_float st1 = user_data str_float st).
    { unfold user_data, expenses_text. now rewrite Hi1, He1, Hi, He. }
    eexists. split; [reflexivity|].
    cbn [chat_history processing_response income expense_entries
         set_processing_response append_message set_chat_history].
    rewrite Hh1, Hd, Hi1, He1, Hi, He.
    rewrite <- app_assoc. simpl. repeat split.
  - intros err Hfail. pose proof (advice_on_failure _ _ _ Hfail) as Ha.
    split; [exact Ha|].
    exists "An error occurred: "%string, ""%string.
    subst answer. rewrite Ha. now rewrite append_empty_r.
Qed.

End AdvisorProofs.

Lemma advisor_turn_always_answers_witness :
  let st := ledger_state 50000 [rent_15000] in
  exists st',
    user_turn "You are a financial advisor." (fun _ => None)
      (fun _ => OracleRaises "429 quota exceeded") (fun _ => "0"%string) (fun s => s)
      "How much can I save?" st = (st', inl RerunException) /\
    chat_history st' =
      Some [ {| msg_role := assistant;
                content := "Hello User! I'm Financify. How can I help you with your finances today?" |};
             {| msg_role := user; content := "How much can I save?" |};
             {| msg_role := assistant;
                content := "An error occurred: 429 quota exceeded" |} ]%string.
Proof.
  intros st.
  destruct (advisor_turn_always_answers "You are a financial advisor." (fun _ => None)
              (fun _ => OracleRaises "429 quota exceeded"%string) (fun _ => "0"%string)
              (fun s => s) st "How much can I save?"%string)
    as [(st' & Hturn & Hhist & _) _].
  - reflexivity.
  - discriminate.
  - reflexivity.
  - exists st'. split; [exact Hturn|]. rewrite Hhist. reflexivity.
Defined.

(** ** Quiz *)

Local Close Scope Q_scope.

Lemma bool_decide_answer (answers : gmap nat string) i a :
  bool_decide (answers !! i = Some a)
  = match answers !! i with Some c => String.eqb c a | None => false end.
Proof.
  destruct (answers !! i) as [c|].
  - destruct (String.eqb_spec c a) as [->|Hne].
    + now apply bool_decide_eq_true.
    + apply bool_decide_eq_false. congruence.
  - now apply bool_decide_eq_false.
Qed.

Lemma score_from_offset (answers : gmap nat string) (qs : list quiz_question) (s : nat) :
  length (List.filter
            (fun iq => bool_decide (answers !! fst iq = Some (answer (snd iq))))
            (combine (seq s (length qs)) qs))
  = length (List.filter
              (fun i => match nth_error qs (i - s), answers !! i with
                        | Some q, Some c => String.eqb c (answer q)
                        | _, _ => false
                        end)
              (seq s (length qs))).
Proof.
  revert s. induction qs as [|q qs IH]; intros s; simpl.
  - reflexivity.
  - rewrite Nat.sub_diag. simpl. rewrite bool_decide_answer.
    assert (Htail :
      List.filter (fun i => match nth_error (q :: qs) (i - s), answers !! i with
                            | Some q, Some c => String.eqb c (answer q)
                            | _, _ => false
                            end) (seq (S s) (length qs))
      = List.filter (fun i => match nth_error qs (i - S s), answers !! i with
                              | Some q, Some c => String.eqb c (answer q)
                              | _, _ => false
                              end) (seq (S s) (length qs))).
    { apply filter_ext_in. intros i Hi. apply in_seq in Hi.
      replace (i - s) with (S (i - S s)) by lia. reflexivity. }
    rewrite Htail.
    destruct (answers !! s) as [c|]; [destruct (String.eqb c (answer q))|];
      simpl; now rewrite IH.
Qed.

Lemma quiz_score_counts qs answers :
  quiz_score qs answers = count_indices qs (correct_at qs answers).
Proof.
  unfold quiz_score, enumerate, count_indices. rewrite score_from_offset.
  f_equal. apply filter_ext. intros i. unfold correct_at. now rewrite Nat.sub_0_r.
Qed.

Lemma count_split {A} (p q : A -> bool) (l : list A) :
  Forall (fun x => q x = negb (p x)) l ->
  length (List.filter p l) + length (List.filter q l) = length l.
Proof.
  induction 1 as [|x l Hx Hl IH]; simpl.
  - reflexivity.
  - rewrite Hx. destruct (p x); simpl; lia.
Qed.

Lemma all_answered_counts qs (answers : gmap nat string) :
  (forall i, i < length qs -> is_Some (answers !! i)) ->
  count_indices qs (correct_at qs answers) + count_indices qs (wrong_at qs answers)
  = length qs.
Proof.
  intros Hall. unfold count_indices. rewrite count_split.
  - apply length_seq.
  - apply List.Forall_forall. intros i Hi. apply in_seq in Hi.
    unfold wrong_at, correct_at.
    destruct (nth_error qs i) as [q|] eqn:Hq.
    + destruct (Hall i) as [c Hc]; [lia|]. now rewrite Hc.
    + apply nth_error_None in Hq. lia.
Qed.

Lemma dialog_shows_completed qs w st :
  length qs <= current_question st ->
  snd (quiz_dialog qs w st) = Completed (quiz_score qs (user_answers st)).
Proof.
  intros Hle. unfold quiz_dialog.
  destruct (Nat.leb_spec (length qs) (current_question st)); [|lia].
  destruct (clicked w) as [[]|]; reflexivity.
Qed.

(** C9.  In the dialog, Submit and Next without a choice for the question
    on display changes nothing; with a choice it records the choice for the
    current index and moves to the next index.  Once the index has reached
    the number of questions the dialog shows the attempt as completed, with
    the number of indices whose recorded answer is the correct option as
    score.  For two questions with correct options A and B and the answers
    A and C the score is 1. *)
Theorem quiz_next_and_score (qs : list quiz_question) (st : quiz_state) :
  fst (quiz_dialog qs (next_with None) st) = st /\
  (forall c, current_question st < length qs ->
     let st' := fst (quiz_dialog qs (next_with (Some c)) st) in
     user_answers st' = <[current_question st := c]> (user_answers st) /\
     user_answers st' !! current_question st = Some c /\
     current_question st' = current_question st + 1 /\
     selected_lesson st' = selected_lesson st /\
     show_quiz st' = show_quiz st) /\
  (forall w, length qs <= current_question st ->
     snd (quiz_dialog qs w st) = Completed (quiz_score qs (user_answers st))) /\
  quiz_score qs (user_answers st) = count_indices qs (correct_at qs (user_answers st)) /\
  quiz_score two_questions (<[0 := "A"%string]> (<[1 := "C"%string]> ∅)) = 1.
Proof.
  repeat split.
  - unfold quiz_dialog. simpl. destruct (length qs <=? current_question st); reflexivity.
  - unfold quiz_dialog. simpl.
    destruct (Nat.leb_spec (length qs) (current_question st)); [lia|reflexivity].
  - unfold quiz_dialog. simpl.
    destruct (Nat.leb_spec (length qs) (current_question st)); [lia|].
    simpl. apply lookup_insert_eq.
  - unfold quiz_dialog. simpl.
    destruct (Nat.leb_spec (length qs) (current_question st)); [lia|reflexivity].
  - unfold quiz_dialog. simpl.
    destruct (Nat.leb_spec (length qs) (current_question st)); [lia|reflexivity].
  - unfold quiz_dialog. simpl.
    destruct (Nat.leb_spec (length qs) (current_question st)); [lia|reflexivity].
  - intros w Hle. now apply dialog_shows_completed.
  - apply quiz_score_counts.
Qed.

Lemma quiz_next_and_score_witness :
  let st0 := reset_quiz "Chapter 1: Needs vs Wants" true in
  let st1 := fst (quiz_dialog two_questions (next_with (Some "A"%string)) st0) in
  let st2 := fst (quiz_dialog two_questions (next_with (Some "C"%string)) st1) in
  current_question st1 = 1 /\
  user_answers st1 !! 0 = Some "A"%string /\
  snd (quiz_dialog two_questions (next_with None) st2) = Completed 1.
Proof.
  intros st0 st1 st2.
  destruct (quiz_next_and_score two_questions st0) as (_ & Hnext & _).
  destruct (Hnext "A"%string) as (_ & Hrec & Hcur & _); [simpl; lia|].
  destruct (quiz_next_and_score two_questions st2) as (_ & _ & Hdone & _).
  split; [exact Hcur|]. split; [exact Hrec|].
  rewrite (Hdone (next_with None)); [reflexivity|simpl; lia].
Defined.

(** ** The answers recorded during an attempt *)

(** The quiz button starts an attempt, and while the dialog is open a run
    of the page with any other widget of the dialog is a run of the
    dialog. *)
Lemma page_opens_quiz lessons st w l :
  lookup_lesson lessons (selected_lesson st) = Some l ->
  clicked w = Some QuizButton ->
  page_fin_bites lessons w st = Some (reset_quiz (selected_lesson st) true, NoDialog).
Proof.
  intros Hl Hc. unfold page_fin_bites. now rewrite Hc, Hl.
Qed.

Lemma page_runs_dialog lessons st w l :
  lookup_lesson lessons (selected_lesson st) = Some l ->
  show_quiz st = true ->
  (forall i, clicked w <> Some (LessonButton i)) ->
  clicked w <> Some QuizButton ->
  page_fin_bites lessons w st = Some (quiz_dialog (quiz l) w st).
Proof.
  intros Hl Hs Hlesson Hquiz. unfold page_fin_bites. rewrite Hl, Hs.
  destruct (clicked w) as [[i| | | |]|]; try reflexivity.
  - now destruct (Hlesson i).
  - now destruct Hquiz.
Qed.

Lemma quiz_step_cases qs st w :
  let st' := quiz_step qs st w in
  (forall i, is_Some (user_answers st !! i) -> is_Some (user_answers st' !! i)) /\
  (current_question st' <= current_question st \/
   current_question st' = current_question st + 1 /\
   is_Some (user_answers st' !! current_question st)).
Proof.
  unfold quiz_step, quiz_dialog.
  destruct (length qs <=? current_question st).
  - destruct (clicked w) as [[]|]; simpl; (split; [tauto|left; lia]).
  - destruct (clicked w) as [[]|]; simpl; try (split; [tauto|left; lia]).
    + destruct (current_question st =? 0); simpl; (split; [tauto|left; lia]).
    + destruct (user_choice w) as [c|]; simpl; [|split; [tauto|left; lia]].
      split.
      * intros i Hi. apply lookup_insert_is_Some. 
        destruct (decide (current_question st = i)); [now left|right; tauto].
      * right. split; [reflexivity|]. rewrite lookup_insert_eq. eauto.
Qed.

Lemma furthest_ge qs ws st : current_question st <= furthest qs ws st.
Proof. destruct ws; simpl; lia. Qed.

Lemma run_le_furthest qs ws : forall st,
  current_question (quiz_run qs ws st) <= furthest qs ws st.
Proof.
  induction ws as [|w ws IH]; intros st; simpl.
  - lia.
  - specialize (IH (quiz_step qs st w)). lia.
Qed.

Lemma answers_below_furthest qs ws : forall st m,
  (forall i, i < m -> is_Some (user_answers st !! i)) ->
  current_question st <= m ->
  forall i, i < Nat.max m (furthest qs ws st) ->
            is_Some (user_answers (quiz_run qs ws st) !! i).
Proof.
  induction ws as [|w ws IH]; simpl; intros st m Hm Hcur i Hi.
  - apply Hm. lia.
  - destruct (quiz_step_cases qs st w) as [Hmono Hstep].
    pose proof (furthest_ge qs ws (quiz_step qs st w)) as Hge.
    apply (IH (quiz_step qs st w) (Nat.max m (current_question (quiz_step qs st w)))).
    + intros j Hj. destruct Hstep as [Hle|[Heq Hrec]].
      * apply Hmono, Hm. lia.
      * destruct (decide (j = current_question st)) as [->|Hne]; [exact Hrec|].
        apply Hmono, Hm. lia.
    + lia.
    + lia.
Qed.

(** C10.  Start an attempt (index 0, no answers) and run the dialog any
    number of times, with any choices and clicks.  Then every index below
    the largest index seen so far has a recorded answer.  In particular,
    when the attempt is completed every question has a recorded answer, the
    dialog shows the score, and each question is counted once: as correct
    in the score or as wrong. *)
Theorem quiz_answers_recorded (qs : list quiz_question) (title : string) (ws : list widgets) :
  let st0 := reset_quiz title true in
  let st := quiz_run qs ws st0 in
  (forall i, i < furthest qs ws st0 -> is_Some (user_answers st !! i)) /\
  current_question st <= furthest qs ws st0 /\
  (length qs <= current_question st ->
     (forall i, i < length qs -> is_Some (user_answers st !! i)) /\
     (forall w, snd (quiz_dialog qs w st) = Completed (quiz_score qs (user_answers st))) /\
     quiz_score qs (user_answers st)
     + count_indices qs (wrong_at qs (user_answers st)) = length qs).
Proof.
  intros st0 st.
  assert (Hrec : forall i, i < furthest qs ws st0 -> is_Some (user_answers st !! i)).
  { intros i Hi. apply (answers_below_furthest qs ws st0 0).
    - intros j Hj. lia.
    - simpl. lia.
    - lia. }
  assert (Hcur : current_question st <= furthest qs ws st0).
  { apply run_le_furthest. }
  split; [exact Hrec|]. split; [exact Hcur|].
  intros Hdone.
  assert (Hall : forall i, i < length qs -> is_Some (user_answers st !! i)).
  { intros i Hi. apply Hrec. lia. }
  split; [exact Hall|]. split.
  - intros w. now apply dialog_shows_completed.
  - rewrite quiz_score_counts. now apply all_answered_counts.
Qed.

Lemma quiz_answers_recorded_witness :
  let ws := [ next_with (Some "A"%string);
              {| user_choice := None; clicked := Some PreviousButton |};
              next_with None;
              next_with (Some "B"%string);
              next_with (Some "C"%string) ] in
  let st := quiz_run two_questions ws (reset_quiz "Chapter 1: Needs vs Wants" true) in
  current_question st = 2 /\
  is_Some (user_answers st !! 0) /\ is_Some (user_answers st !! 1) /\
  quiz_score two_questions (user_answers st)
  + count_indices two_questions (wrong_at two_questions (user_answers st)) = 2.
Proof.
  intros ws st.
  destruct (quiz_answers_recorded two_questions "Chapter 1: Needs vs Wants" ws)
    as (_ & _ & Hdone).
  destruct Hdone as (Hall & _ & Hcount); [vm_compute; lia|].
  split; [reflexivity|].
  split; [apply Hall; simpl; lia|]. split; [apply Hall; simpl; lia|].
  exact Hcount.
Defined.

(** * Further properties *)

Local Open Scope Q_scope.

(** ** Sums *)

Lemma py_sum_acc (l : list Q) (a : Q) : fold_left Qplus l a == a + py_sum l.
Proof.
  unfold py_sum. revert a. induction l as [|x l IH]; intros a; simpl.
  - ring.
  - rewrite (IH (a + x)), (IH (0 + x)). ring.
Qed.

Lemma py_sum_cons (x : Q) (l : list Q) : py_sum (x :: l) == x + py_sum l.
Proof. unfold py_sum at 1. simpl. rewrite py_sum_acc. ring. Qed.

Lemma py_sum_perm (l l' : list Q) : Permutation l l' -> py_sum l == py_sum l'.
Proof.
  induction 1 as [|x l l' _ IH|x y l|l l' l'' _ IH1 _ IH2].
  - reflexivity.
  - rewrite !py_sum_cons, IH. reflexivity.
  - rewrite !py_sum_cons. ring.
  - now rewrite IH1.
Qed.

Lemma py_sum_nonneg (l : list Q) : Forall (fun x => 0 <= x) l -> 0 <= py_sum l.
Proof.
  induction 1 as [|x l Hx _ IH].
  - discriminate.
  - rewrite py_sum_cons. lra.
Qed.

(** Every item of the dict comes from an entry. *)
Lemma dict_set_In d k v kv :
  In kv (dict_set d k v) -> In kv d \/ kv = (k, v).
Proof.
  induction d as [|[k' v'] d IH]; simpl.
  - intros [<-|[]]. now right.
  - destruct (String.eqb_spec k' k) as [->|Hne]; simpl.
    + intros [<-|Hin]; [now right|left; now right].
    + intros [<-|Hin]; [left; now left|].
      destruct (IH Hin) as [H|H]; [left; now right|now right].
Qed.

Lemma expenses_data_In entries kv :
  In kv (expenses_data entries) -> exists e, In e entries /\ entry_pair e = kv.
Proof.
  unfold expenses_data.
  assert (H : forall d,
    In kv (fold_left (fun d e => dict_set d (category e) (amount e)) entries d) ->
    In kv d \/ exists e, In e entries /\ entry_pair e = kv).
  { induction entries as [|e entries IH]; simpl; intros d Hin.
    - now left.
    - destruct (IH _ Hin) as [Hd|(e' & He' & Hp)].
      + destruct (dict_set_In _ _ _ _ Hd) as [H|H]; [now left|].
        right. exists e. split; [now left|]. now rewrite H.
      + right. exists e'. split; [now right|assumption]. }
  intros Hin. destruct (H [] Hin) as [[]|Hex]. exact Hex.
Qed.

Lemma total_expenses_nonneg entries :
  Forall (fun e => 0 <= amount e) entries ->
  0 <= py_sum (map snd (expenses_data entries)).
Proof.
  intros Hall. apply py_sum_nonneg. apply List.Forall_forall. intros x Hx.
  apply in_map_iff in Hx. destruct Hx as (kv & <- & Hkv).
  destruct (expenses_data_In _ _ Hkv) as (e & He & <-).
  rewrite List.Forall_forall in Hall. exact (Hall e He).
Qed.

(** ** Truncation *)

Lemma py_int_le_bound (x : Q) (z : Z) : x <= inject_Z z -> (py_int x <= z)%Z.
Proof.
  unfold Qle, py_int. simpl. intros H.
  apply Z.quot_le_upper_bound; lia.
Qed.

Lemma py_int_between (x : Q) (z : Z) :
  inject_Z z <= x -> x < inject_Z (z + 1) -> (0 <= z)%Z -> py_int x = z.
Proof.
  unfold Qle, Qlt, py_int. simpl. intros H1 H2 Hz.
  rewrite Z.quot_div_nonneg by nia.
  apply Z.diveq. right. left. nia.
Qed.

Lemma py_int_Qeq_nonneg (x y : Q) : 0 <= x -> x == y -> py_int x = py_int y.
Proof.
  intros Hx Hxy. symmetry. apply py_int_between.
  - rewrite <- Hxy. unfold Qle, py_int. simpl.
    apply Qnum_nonneg in Hx. rewrite Z.quot_div_nonneg by lia.
    pose proof (Z.mul_div_le (Qnum x) (Zpos (Qden x))). lia.
  - rewrite <- Hxy. unfold Qlt, py_int. simpl.
    apply Qnum_nonneg in Hx. rewrite Z.quot_div_nonneg by lia.
    pose proof (Z.mul_succ_div_gt (Qnum x) (Zpos (Qden x))). lia.
  - apply py_int_nonneg. exact Hx.
Qed.

(** ** Home page *)

(** X1.  With a positive income and no negative amount among the
    entries, the balance is at most the income and the savings percentage
    shown on the Home page lies between 0 and 100. *)
Theorem home_savings_pct_range (st : session_state) (v : home_view) :
  page_home st = Some v ->
  0 < income st ->
  Forall (fun e => 0 <= amount e) (expense_entries st) ->
  hv_balance v <= income st /\ (0 <= hv_savings_pct v <= 100)%Z.
Proof.
  intros Hv Hinc Hall. apply page_home_Some in Hv.
  destruct Hv as (_ & _ & Ht & Hb & Hp).
  pose proof (total_expenses_nonneg _ Hall) as Hnn. rewrite <- Ht in Hnn.
  assert (Hbal : hv_balance v <= income st) by (rewrite Hb; lra).
  split; [exact Hbal|]. rewrite Hp.
  rewrite (proj2 (Qlt_bool_iff _ _) Hinc).
  assert (Hrate : hv_balance v / income st * 100 <= inject_Z 100).
  { assert (Hr : hv_balance v / income st * income st == hv_balance v) by (field; lra).
    set (r := hv_balance v / income st) in *.
    change (inject_Z 100) with 100. nra. }
  pose proof (py_int_le_bound _ _ Hrate). lia.
Qed.

Lemma home_savings_pct_range_witness :
  let st := ledger_state 50000 [rent_15000] in
  exists v, page_home st = Some v /\ (0 <= hv_savings_pct v <= 100)%Z.
Proof.
  intros st. eexists. split; [reflexivity|].
  apply (home_savings_pct_range st).
  - reflexivity.
  - reflexivity.
  - repeat constructor. discriminate.
Defined.

(** X2.  The progress value of the target income card does not depend on
    the income: it is 83 for every positive income, and 100 for a negative
    one. *)
Theorem progress_to_target_constant (income : Q) :
  (0 < income -> progress_to_target income = 83%Z) /\
  (income < 0 -> progress_to_target income = 100%Z).
Proof.
  unfold progress_to_target. split; intros H.
  - assert (Ht : 0 < income * (12 # 10)) by lra.
    rewrite (proj2 (Qlt_bool_iff _ _) Ht).
    assert (Hq : income / (income * (12 # 10)) * 100 == 250 # 3) by (field; lra).
    rewrite (py_int_Qeq_nonneg _ (250 # 3)); [reflexivity| |exact Hq].
    rewrite Hq. discriminate.
  - assert (Ht : income * (12 # 10) <= 0) by lra.
    now rewrite (proj2 (Qlt_bool_false_iff _ _) Ht).
Qed.

Lemma progress_to_target_constant_witness :
  progress_to_target 50000 = 83%Z /\ progress_to_target (1 # 3) = 83%Z /\
  progress_to_target (-5) = 100%Z.
Proof.
  refine (conj _ (conj _ _)).
  - apply (proj1 (progress_to_target_constant 50000)). reflexivity.
  - apply (proj1 (progress_to_target_constant (1 # 3))). reflexivity.
  - apply (proj2 (progress_to_target_constant (-5))). reflexivity.
Defined.

(** ** Insights page: budget card *)

Lemma page_insights_budget st v :
  page_insights st = Some v ->
  iv_budget_goal v = income st * (8 # 10) /\
  iv_remaining_budget v = iv_budget_goal v - iv_total_expenses v /\
  iv_status v = (if Qle_bool 0 (iv_remaining_budget v) then OnTrack else OverBudget).
Proof.
  unfold page_insights. destruct (truthy_float (income st)); simpl; [|discriminate].
  destruct (expense_entries st) as [|e es]; simpl; [discriminate|].
  intros [= <-]. simpl. repeat split.
Qed.

Lemma status_OnTrack_iff st v :
  page_insights st = Some v ->
  (iv_status v = OnTrack <-> iv_total_expenses v <= income st * (8 # 10)) /\
  (iv_status v = OverBudget <-> income st * (8 # 10) < iv_total_expenses v).
Proof.
  intros Hv. destruct (page_insights_budget _ _ Hv) as (Hg & Hr & Hs).
  rewrite Hs, Hr, Hg.
  destruct (Qle_bool 0 (income st * (8 # 10) - iv_total_expenses v)) eqn:E.
  - apply Qle_bool_iff in E. split; split; intros H; try reflexivity; try discriminate; lra.
  - assert (Hn : ~ 0 <= income st * (8 # 10) - iv_total_expenses v).
    { intros H. apply Qle_bool_iff in H. congruence. }
    split; split; intros H; try reflexivity; try discriminate; lra.
Qed.

Lemma risk_bucket_inv r :
  (risk_bucket r = Aggressive -> r < 10) /\
  (risk_bucket r = Conservative -> 25 <= r).
Proof.
  unfold risk_bucket.
  destruct (Qlt_bool r 10) eqn:E1.
  - apply Qlt_bool_iff in E1. split; [intros _; exact E1|discriminate].
  - apply Qlt_bool_false_iff in E1. rewrite (proj2 (Qle_bool_iff _ _) E1). simpl.
    destruct (Qlt_bool r 25) eqn:E2; [split; discriminate|].
    apply Qlt_bool_false_iff in E2. split; [discriminate|intros _; exact E2].
Qed.

(** X3.  On the Insights page, for a positive income, a Conservative
    risk profile always comes with the budget status "On Track", and an
    Aggressive one always with "Over Budget". *)
Theorem risk_profile_implies_budget_status (st : session_state) (v : insights_view) :
  page_insights st = Some v ->
  0 < income st ->
  (iv_risk_profile v = Conservative -> iv_status v = OnTrack) /\
  (iv_risk_profile v = Aggressive -> iv_status v = OverBudget).
Proof.
  intros Hv Hinc. destruct (status_OnTrack_iff _ _ Hv) as [Hon Hover].
  apply page_insights_Some in Hv.
  destruct Hv as (_ & _ & _ & Hb & Hr & Hrisk & _).
  rewrite (proj2 (Qlt_bool_iff _ _) Hinc) in Hr.
  assert (Hq : iv_balance v / income st * income st == iv_balance v) by (field; lra).
  assert (Hrate : 20 <= iv_savings_rate v <-> iv_total_expenses v <= income st * (8 # 10)).
  { rewrite Hr. set (r := iv_balance v / income st) in *. rewrite Hb in Hq.
    split; intros H; nra. }
  split.
  - intros Hc. rewrite Hrisk in Hc. apply risk_bucket_inv in Hc.
    apply Hon, Hrate. lra.
  - intros Ha. rewrite Hrisk in Ha. apply risk_bucket_inv in Ha.
    apply Hover. apply Qnot_le_lt. intros Hle. apply Hrate in Hle. lra.
Qed.

Lemma risk_profile_implies_budget_status_witness :
  let st := ledger_state 50000 [rent_15000] in
  exists v, page_insights st = Some v /\ iv_status v = OnTrack /\
            iv_risk_profile v = Conservative.
Proof.
  intros st. eexists. split; [reflexivity|].
  destruct (risk_profile_implies_budget_status st _ eq_refl) as (H & _); [reflexivity|].
  split; [apply H|]; reflexivity.
Defined.

(** X4.  For a positive income the status is "On Track" exactly when the
    spent percentage is at most 100; the progress bar then has the spent
    percentage as width, and width 100 when over budget. *)
Theorem budget_bar_matches_status (st : session_state) (v : insights_view) :
  page_insights st = Some v ->
  0 < income st ->
  let spent := spent_percentage (income st) (iv_total_expenses v) in
  let width := spent_bar_width (income st) (iv_total_expenses v) in
  (iv_status v = OnTrack <-> spent <= 100) /\
  (iv_status v = OnTrack -> width = spent) /\
  (iv_status v = OverBudget -> width = 100).
Proof.
  intros Hv Hinc spent width.
  destruct (status_OnTrack_iff _ _ Hv) as [Hon Hover].
  assert (Hg : 0 < income st * (8 # 10)) by lra.
  assert (Hs : spent = iv_total_expenses v / (income st * (8 # 10)) * 100).
  { unfold spent, spent_percentage. now rewrite (proj2 (Qlt_bool_iff _ _) Hg). }
  assert (Hq : iv_total_expenses v / (income st * (8 # 10)) * (income st * (8 # 10))
               == iv_total_expenses v) by (field; lra).
  assert (Hle : spent <= 100 <-> iv_total_expenses v <= income st * (8 # 10)).
  { rewrite Hs. set (r := iv_total_expenses v / (income st * (8 # 10))) in *.
    split; intros H; nra. }
  split; [|split].
  - rewrite Hon. symmetry. exact Hle.
  - intros H. apply Hon, Hle in H. unfold width, spent_bar_width, py_min. fold spent.
    now rewrite (proj2 (Qlt_bool_false_iff _ _) H).
  - intros H. apply Hover in H. unfold width, spent_bar_width, py_min. fold spent.
    assert (Hlt : 100 < spent).
    { apply Qnot_le_lt. intros Hc. apply Hle in Hc. lra. }
    now rewrite (proj2 (Qlt_bool_iff _ _) Hlt).
Qed.

Lemma budget_bar_matches_status_witness :
  let st := ledger_state 1000 [ {| category := "Rent"; amount := 2000 |} ] in
  exists v, page_insights st = Some v /\ iv_status v = OverBudget /\
            spent_bar_width (income st) (iv_total_expenses v) = 100.
Proof.
  intros st. eexists. split; [reflexivity|]. split; [reflexivity|].
  destruct (budget_bar_matches_status st _ eq_refl) as (_ & _ & H); [reflexivity|].
  apply H. reflexivity.
Defined.

(** ** Insights page: legend *)

Lemma map_snd_enumerate_from {A} (l : list A) (s : nat) :
  map snd (combine (seq s (length l)) l) = l.
Proof.
  revert s. induction l as [|x l IH]; intros s; simpl; [reflexivity|].
  now rewrite IH.
Qed.

Lemma map_snd_enumerate {A} (l : list A) : map snd (enumerate l) = l.
Proof. apply map_snd_enumerate_from. Qed.

Lemma legend_columns (s : dict) (t : Q) :
  map lr_category (legend s t) = map fst s /\
  map lr_amount (legend s t) = map snd s /\
  map lr_percentage (legend s t) = map (legend_percentage t) (map snd s).
Proof.
  unfold legend. rewrite !map_map. simpl.
  rewrite <- (map_snd_enumerate s) at 2 4 6. rewrite !map_map. repeat split.
Qed.

Lemma expenses_data_keys_In entries c :
  In c (map fst (expenses_data entries)) <-> In c (map category entries).
Proof.
  unfold expenses_data.
  assert (H : forall d,
    In c (map fst (fold_left (fun d e => dict_set d (category e) (amount e)) entries d))
    <-> In c (map fst d) \/ In c (map category entries)).
  { induction entries as [|e entries IH]; simpl; intros d.
    - tauto.
    - rewrite IH, dict_set_keys.
      destruct (existsb (String.eqb (category e)) (map fst d)) eqn:E.
      + apply existsb_eqb_In in E. split; [tauto|].
        intros [H|[<-|H]]; tauto.
      + rewrite in_app_iff. simpl. tauto. }
  rewrite H. simpl. tauto.
Qed.

Lemma legend_colors_distinct (s : dict) (t : Q) :
  (length s <= 6)%nat -> List.NoDup (map lr_color (legend s t)).
Proof.
  intros Hlen.
  do 7 (destruct s as [|? s]; [repeat constructor; simpl; intuition discriminate|]).
  simpl in Hlen. lia.
Qed.

(** X5.  The legend has one row per distinct category of the entries:
    its categories are those of the sorted list, each category that was
    entered occurs in it, none occurs twice, and with at most six
    categories no two rows have the same colour. *)
Theorem legend_one_row_per_category (entries : list expense_entry) :
  let d := expenses_data entries in
  let rows := legend (sorted_expenses d) (py_sum (map snd d)) in
  map lr_category rows = map fst (sorted_expenses d) /\
  (forall c, In c (map lr_category rows) <-> In c (map category entries)) /\
  List.NoDup (map lr_category rows) /\
  ((length d <= 6)%nat -> List.NoDup (map lr_color rows)).
Proof.
  intros d rows.
  destruct (legend_columns (sorted_expenses d) (py_sum (map snd d))) as (Hc & _ & _).
  destruct (py_sorted_reverse_spec snd d) as (Hperm & _ & _).
  fold (sorted_expenses d) in Hperm.
  assert (Hkeys : Permutation (map fst d) (map lr_category rows)).
  { unfold rows. rewrite Hc. now apply Permutation_map. }
  split; [exact Hc|]. split; [|split].
  - intros c. rewrite <- expenses_data_keys_In. fold d.
    split; intros H.
    + eapply Permutation_in; [symmetry; exact Hkeys|exact H].
    + eapply Permutation_in; [exact Hkeys|exact H].
  - eapply Permutation_NoDup; [exact Hkeys|]. apply expenses_data_keys_NoDup.
  - intros Hlen. apply legend_colors_distinct.
    rewrite <- (Permutation_length Hperm). exact Hlen.
Qed.

Lemma legend_one_row_per_category_witness :
  let entries := [ rent_15000; {| category := "Food"; amount := 100 |};
                   {| category := "Food"; amount := 200 |} ] in
  let d := expenses_data entries in
  List.NoDup (map lr_color (legend (sorted_expenses d) (py_sum (map snd d)))).
Proof.
  intros entries d.
  destruct (legend_one_row_per_category entries) as (_ & _ & _ & H).
  apply H. vm_compute. lia.
Defined.

Lemma py_sum_scaled (l : list Q) (t : Q) :
  ~ t == 0 -> py_sum (map (fun a => a / t * 100) l) == py_sum l / t * 100.
Proof.
  intros Ht. induction l as [|x l IH]; simpl.
  - unfold py_sum. simpl. field. exact Ht.
  - rewrite !py_sum_cons, IH. field. exact Ht.
Qed.

(** X6.  When the total of the expenses is positive, the percentages of
    the legend rows add up to 100. *)
Theorem legend_percentages_sum (entries : list expense_entry) :
  let d := expenses_data entries in
  let total_expenses := py_sum (map snd d) in
  0 < total_expenses ->
  py_sum (map lr_percentage (legend (sorted_expenses d) total_expenses)) == 100.
Proof.
  intros d t Ht.
  destruct (legend_columns (sorted_expenses d) t) as (_ & _ & Hp). rewrite Hp.
  destruct (py_sorted_reverse_spec snd d) as (Hperm & _ & _).
  fold (sorted_expenses d) in Hperm.
  assert (Hext : map (legend_percentage t) (map snd (sorted_expenses d))
                 = map (fun a => a / t * 100) (map snd (sorted_expenses d))).
  { apply map_ext. intros a. unfold legend_percentage.
    now rewrite (proj2 (Qlt_bool_iff _ _) Ht). }
  rewrite Hext, py_sum_scaled by lra.
  rewrite <- (py_sum_perm _ _ (Permutation_map snd Hperm)). fold t.
  field. lra.
Qed.

Lemma legend_percentages_sum_witness :
  let d := expenses_data [ rent_15000; {| category := "Food"; amount := 5000 |} ] in
  py_sum (map lr_percentage (legend (sorted_expenses d) (py_sum (map snd d)))) == 100.
Proof.
  intros d.
  apply (legend_percentages_sum
           [ rent_15000; {| category := "Food"; amount := 5000 |} ]).
  reflexivity.
Defined.

(** X7.  The first row of the sorted list is a largest expense: no
    category of the dict has a larger amount.  The sorted list is empty only
    when there are no entries. *)
Theorem top_category_is_largest (entries : list expense_entry) :
  (forall top rest kv,
     sorted_expenses (expenses_data entries) = top :: rest ->
     In kv (expenses_data entries) -> snd kv <= snd top) /\
  (sorted_expenses (expenses_data entries) = [] -> entries = []).
Proof.
  destruct (py_sorted_reverse_spec snd (expenses_data entries)) as (Hperm & Hsorted & _).
  fold (sorted_expenses (expenses_data entries)) in Hperm, Hsorted.
  split.
  - intros top rest kv Heq Hin. rewrite Heq in Hperm, Hsorted.
    apply (Permutation_in _ Hperm) in Hin.
    inversion Hsorted as [|? ? _ Hall]; subst.
    destruct Hin as [<-|Hin]; [apply Qle_refl|].
    rewrite List.Forall_forall in Hall. exact (Hall kv Hin).
  - intros Heq. rewrite Heq in Hperm. symmetry in Hperm. apply Permutation_nil in Hperm.
    destruct entries as [|e entries]; [reflexivity|].
    assert (Hin : In (category e) (map fst (expenses_data (e :: entries)))).
    { apply expenses_data_keys_In. now left. }
    rewrite Hperm in Hin. destruct Hin.
Qed.

Lemma top_category_is_largest_witness :
  let entries := [ {| category := "Food"; amount := 5000 |}; rent_15000 ] in
  sorted_expenses (expenses_data entries) = [("Rent", 15000); ("Food", 5000)]%string /\
  snd ("Food"%string, 5000) <= snd ("Rent"%string, 15000).
Proof.
  intros entries. split; [reflexivity|].
  apply (proj1 (top_category_is_largest entries) _ [("Food"%string, 5000)] _ eq_refl).
  simpl. now left.
Defined.

(** ** Add page *)

Lemma render_rows_unchanged st b l : render_rows (unchanged_form st b) l = l.
Proof.
  unfold render_rows. simpl.
  rewrite <- (map_snd_enumerate l) at 2. rewrite <- (map_id (map snd (enumerate l))).
  rewrite map_map. apply map_ext. intros [i [c a]]. reflexivity.
Qed.

Lemma set_expense_entries_same st : set_expense_entries (expense_entries st) st = st.
Proof. now destruct st. Qed.

Lemma set_income_same st : set_income (income st) st = st.
Proof. now destruct st. Qed.

Lemma filter_valid_Forall l : Forall (fun e => valid_entry e = true) (List.filter valid_entry l).
Proof.
  apply List.Forall_forall. intros e He. apply filter_In in He. tauto.
Qed.

Lemma filter_all_valid l :
  Forall (fun e => valid_entry e = true) l -> List.filter valid_entry l = l.
Proof.
  induction 1 as [|e l He _ IH]; simpl; [reflexivity|]. now rewrite He, IH.
Qed.

Lemma valid_entry_spec e :
  valid_entry e = true <-> py_strip (category e) <> ""%string /\ 0 < amount e.
Proof.
  unfold valid_entry. rewrite andb_true_iff, negb_true_iff, Qlt_bool_iff.
  destruct (String.eqb_spec (py_strip (category e)) ""); split; intros [H1 H2];
    split; congruence.
Qed.

Section AddPageProofs.

Variable DOCUMENT_ANALYSIS_PROMPT : string.
Variable GenerativeModel : string -> option string.
Variable generate_content : request -> oracle_result.
Variable json_loads : string -> option json.
Variable float_of_string : string -> option Q.
Variable py_str : json -> string.

Local Abbreviation add :=
  (page_add DOCUMENT_ANALYSIS_PROMPT GenerativeModel generate_content
     json_loads float_of_string py_str).
Local Abbreviation oracle_answers :=
  (oracle_answers DOCUMENT_ANALYSIS_PROMPT GenerativeModel generate_content).
Local Abbreviation analyze :=
  (analyze_document_with_vision DOCUMENT_ANALYSIS_PROMPT GenerativeModel generate_content
     json_loads float_of_string py_str).

(** The two ways a submitted form can go. *)
Lemma page_add_submitted w st :
  submitted w = true ->
  let rows := render_rows w (expense_entries st) in
  (List.filter valid_entry rows <> [] /\
   add w st = (set_expense_entries (List.filter valid_entry rows)
                 (set_income (income_input w) (set_expense_entries rows st)),
               (false, AddRerun))) \/
  (List.filter valid_entry rows = [] /\
   exists st' e, add w st = (st', (true, e)) /\
     add_page_rest DOCUMENT_ANALYSIS_PROMPT GenerativeModel generate_content
       json_loads float_of_string py_str w
       (set_income (income_input w) (set_expense_entries rows st)) = (st', e)).
Proof.
  intros Hs rows. unfold page_add. rewrite Hs. simpl. fold rows.
  destruct (List.filter valid_entry rows) as [|e l] eqn:E.
  - right. split; [reflexivity|].
    destruct (add_page_rest _ _ _ _ _ _ w _) as [st3 e3] eqn:Er.
    exists st3, e3. split; reflexivity.
  - left. split; [discriminate|reflexivity].
Qed.

(** X8.  A submitted form that is accepted (no warning) ends in a rerun,
    stores the income of the form and, as entries, the rows of the form
    whose category is not blank once stripped and whose amount is positive,
    in their order; at least one entry is stored, and the other keys are
    unchanged. *)
Theorem save_stores_valid_rows (w : add_widgets) (st st' : session_state) (e : add_ending) :
  submitted w = true ->
  add w st = (st', (false, e)) ->
  e = AddRerun /\
  income st' = income_input w /\
  expense_entries st' = List.filter valid_entry (render_rows w (expense_entries st)) /\
  expense_entries st' <> [] /\
  Forall (fun x => py_strip (category x) <> ""%string /\ 0 < amount x) (expense_entries st') /\
  name st' = name st /\ chat_history st' = chat_history st /\
  income_text st' = income_text st /\
  processing_response st' = processing_response st.
Proof.
  intros Hs Hadd.
  destruct (page_add_submitted w st Hs) as [[Hne Heq]|[_ (st2 & e2 & Heq & _)]];
    rewrite Heq in Hadd; [|discriminate].
  injection Hadd as <- <-. simpl. repeat split; try assumption.
  eapply List.Forall_impl; [|apply filter_valid_Forall].
  intros x Hx. now apply valid_entry_spec.
Qed.

(** X9.  A submitted form without any valid row is refused with a
    warning, yet the income of the form is stored all the same; the entries
    are the rows as the form shows them. *)
Theorem save_refused_keeps_income (w : add_widgets) (st : session_state) :
  submitted w = true ->
  add_clicked w = false ->
  uploaded w = None ->
  List.filter valid_entry (render_rows w (expense_entries st)) = [] ->
  exists st',
    add w st = (st', (true, AddReturn)) /\
    income st' = income_input w /\
    expense_entries st' = render_rows w (expense_entries st).
Proof.
  intros Hs Ha Hu Hnone.
  destruct (page_add_submitted w st Hs) as [[Hne _]|[_ (st2 & e2 & Heq & Hrest)]];
    [contradiction|].
  unfold add_page_rest in Hrest. rewrite Ha, Hu in Hrest. injection Hrest as <- <-.
  eexists. split; [exact Heq|]. split; reflexivity.
Qed.

Lemma unchanged_form_view st :
  add (unchanged_form st false) st = (st, (false, AddReturn)).
Proof.
  unfold page_add, add_page_rest. simpl.
  now rewrite render_rows_unchanged, set_expense_entries_same.
Qed.

Lemma unchanged_form_save st :
  Forall (fun e => valid_entry e = true) (expense_entries st) ->
  expense_entries st <> [] ->
  add (unchanged_form st true) st = (st, (false, AddRerun)).
Proof.
  intros Hall Hne. unfold page_add. simpl.
  rewrite render_rows_unchanged, set_expense_entries_same, set_income_same.
  rewrite (filter_all_valid _ Hall).
  destruct (expense_entries st) eqn:E; [contradiction|].
  rewrite <- E. now rewrite set_expense_entries_same.
Qed.

(** X10.  Saving is a round trip: after an accepted save, showing the
    form again changes nothing, and submitting it unchanged stores the same
    state again. *)
Theorem save_round_trip (w : add_widgets) (st st' : session_state) :
  submitted w = true ->
  add w st = (st', (false, AddRerun)) ->
  add (unchanged_form st' false) st' = (st', (false, AddReturn)) /\
  add (unchanged_form st' true) st' = (st', (false, AddRerun)).
Proof.
  intros Hs Hadd.
  destruct (page_add_submitted w st Hs) as [[Hne Heq]|[_ (st2 & e2 & Heq & _)]];
    rewrite Heq in Hadd; [|discriminate].
  injection Hadd as <-.
  split; [apply unchanged_form_view|].
  apply unchanged_form_save; simpl; [apply filter_valid_Forall|exact Hne].
Qed.

(** X11.  "Add Another Expense" appends one blank row to the rows of the
    form and reruns; a blank row is never stored by a save. *)
Theorem add_row_appends_blank (w : add_widgets) (st : session_state) :
  submitted w = false ->
  add_clicked w = true ->
  add w st =
    (set_expense_entries (render_rows w (expense_entries st) ++ [blank_row]) st,
     (false, AddRerun)) /\
  (forall l, List.filter valid_entry (l ++ [blank_row]) = List.filter valid_entry l).
Proof.
  intros Hs Ha. split.
  - unfold page_add, add_page_rest. rewrite Hs, Ha. simpl. now destruct st.
  - intros l. rewrite List.filter_app. simpl. apply app_nil_r.
Qed.

Lemma kept_entries_In items item e :
  In item items -> kept_entry item = Some e -> In e (kept_entries items).
Proof.
  unfold kept_entries. induction items as [|x items IH]; simpl; [tauto|].
  intros [->|Hin] He.
  - rewrite He. now left.
  - destruct (kept_entry x); [right|]; now apply IH.
Qed.

(** X12.  The entries of a completed extraction pass the save filter of
    the form exactly when their category is not made of white space only:
    the amount test of the form never removes one of them, but an item of
    the response whose category is white space only, with a positive
    amount, is stored by the extraction and dropped by the save filter. *)
Theorem extraction_then_save (f : uploaded_file) (st st' : session_state) :
  analyze f st = (st', Rerun) ->
  List.filter valid_entry (expense_entries st')
  = List.filter (fun e => negb (String.eqb (py_strip (category e)) "")) (expense_entries st') /\
  (Forall (fun e => py_strip (category e) <> ""%string) (expense_entries st') ->
   List.filter valid_entry (expense_entries st') = expense_entries st') /\
  (forall text data inc items c a,
     oracle_answers f text ->
     json_loads (clean_response text) = Some data ->
     response_shape data inc items ->
     In (JObj [("category", JStr c); ("amount", JNum a)]%string) items ->
     c <> ""%string -> py_strip c = ""%string -> 0 < a ->
     In {| category := c; amount := a |} (expense_entries st') /\
     ~ In {| category := c; amount := a |} (List.filter valid_entry (expense_entries st'))).
Proof.
  intros Hs. split; [|split].
  - apply analyze_success_inv in Hs.
    destruct Hs as (t & d & ij & ej & inc & items & entries & _ & _ & _ & _ & _ & _ & Hc & ->).
    simpl. apply comprehension_kept in Hc.
    apply filter_ext_in. intros e He. rewrite List.Forall_forall in Hc.
    destruct (Hc e He) as [_ Hpos]. unfold valid_entry.
    now rewrite (proj2 (Qlt_bool_iff _ _) Hpos), andb_true_r.
  - apply analyze_success_inv in Hs.
    destruct Hs as (t & d & ij & ej & inc & items & entries & _ & _ & _ & _ & _ & _ & Hc & ->).
    simpl. apply comprehension_kept in Hc.
    intros Hstrip. apply filter_all_valid.
    rewrite List.Forall_forall in *. intros e He. apply valid_entry_spec.
    split; [now apply Hstrip|now apply Hc].
  - intros text data inc items c a Hor Hj Hshape Hin Hc Hblank Ha.
    pose proof (analyze_success DOCUMENT_ANALYSIS_PROMPT GenerativeModel generate_content
                  json_loads float_of_string py_str f st text data inc items Hor Hj Hshape)
      as Hfw.
    rewrite Hs in Hfw. injection Hfw as ->. cbn [expense_entries set_expense_entries]. split.
    + apply (kept_entries_In items _ _ Hin). simpl.
      destruct (String.eqb_spec c ""); [contradiction|].
      now rewrite (proj2 (Qlt_bool_iff _ _) Ha).
    + intros Hf. apply filter_In in Hf. destruct Hf as [_ Hv].
      apply valid_entry_spec in Hv. simpl in Hv. tauto.
Qed.

End AddPageProofs.

Lemma save_stores_valid_rows_witness :
  let st := ledger_state 0 [blank_row; blank_row] in
  let w := typed_form 50000 [("Rent", 15000); ("  ", 20)]%string true in
  exists st', example_add w st = (st', (false, AddRerun)) /\
              income st' = 50000 /\ expense_entries st' = [rent_15000].
Proof.
  intros st w. eexists. split; [reflexivity|].
  destruct (save_stores_valid_rows "extract" (fun _ => None)
              (fun _ => OracleText example_text) example_loads (fun _ => None)
              (fun _ => "50000"%string) w st _ AddRerun eq_refl eq_refl)
    as (_ & Hinc & Hent & _).
  split; [exact Hinc|]. rewrite Hent. reflexivity.
Defined.

Lemma save_refused_keeps_income_witness :
  let st := ledger_state 0 [blank_row] in
  let w := typed_form 50000 [("", 0)]%string true in
  exists st', example_add w st = (st', (true, AddReturn)) /\
              income st' = 50000 /\ expense_entries st' = [blank_row].
Proof.
  intros st w.
  destruct (save_refused_keeps_income "extract" (fun _ => None)
              (fun _ => OracleText example_text) example_loads (fun _ => None)
              (fun _ => "50000"%string) w st eq_refl eq_refl eq_refl eq_refl)
    as (st' & Hadd & Hinc & Hent).
  exists st'. split; [exact Hadd|]. split; [exact Hinc|]. rewrite Hent. reflexivity.
Defined.

Lemma save_round_trip_witness :
  let st := ledger_state 0 [blank_row; blank_row] in
  let w := typed_form 50000 [("Rent", 15000); ("  ", 20)]%string true in
  let st' := fst (example_add w st) in
  example_add (unchanged_form st' true) st' = (st', (false, AddRerun)).
Proof.
  intros st w st'.
  exact (proj2 (save_round_trip "extract" (fun _ => None)
                  (fun _ => OracleText example_text) example_loads (fun _ => None)
                  (fun _ => "50000"%string) w st st' eq_refl eq_refl)).
Defined.

Lemma add_row_appends_blank_witness :
  let st := ledger_state 50000 [rent_15000] in
  let w := {| income_input := 50000; text_input := fun _ v => v;
              number_input := fun _ v => v; submitted := false; add_clicked := true;
              uploaded := None; analyze_clicked := false |} in
  expense_entries (fst (example_add w st)) = [rent_15000; blank_row].
Proof.
  intros st w. unfold example_add.
  rewrite (proj1 (add_row_appends_blank "extract" (fun _ => None)
                    (fun _ => OracleText example_text) example_loads (fun _ => None)
                    (fun _ => "50000"%string) w st eq_refl eq_refl)).
  reflexivity.
Defined.

Lemma extraction_then_save_witness :
  let st' := fst (white_space_analyze (ledger_state 0 [])) in
  In white_space_entry (expense_entries st') /\
  ~ In white_space_entry (List.filter valid_entry (expense_entries st')).
Proof.
  intros st'.
  destruct (extraction_then_save "extract" (fun _ => None)
              (fun _ => OracleText white_space_body) white_space_loads (fun _ => None)
              (fun _ => "50000"%string) example_file (ledger_state 0 []) st' eq_refl)
    as (_ & _ & H).
  apply (H white_space_body white_space_data 50000 white_space_items "   "%string 500).
  - repeat split.
  - reflexivity.
  - exists [("income", JNum 50000); ("expenses", JArr white_space_items)]%string.
    repeat split; auto.
  - simpl. right. now left.
  - discriminate.
  - reflexivity.
  - reflexivity.
Defined.

(** ** Replacing runs of one character *)

Section ReplaceRuns.

Variable c : ascii.
Variable k : nat.
Hypothesis k_pos : (1 <= k)%nat.

Local Abbreviation old := (repeat_char c k).

Lemma prefix_repeat_leading n s :
  String.prefix (repeat_char c n) s = (n <=? leading c s)%nat.
Proof.
  revert s. induction n as [|n IH]; intros s; simpl.
  - now destruct s.
  - destruct s as [|a s]; simpl; [reflexivity|].
    destruct (ascii_dec c a) as [<-|Hne].
    + rewrite Ascii.eqb_refl. simpl. apply IH.
    + destruct (Ascii.eqb_spec a c) as [->|_]; [contradiction|reflexivity].
Qed.

Lemma leading_split n s :
  (n <= leading c s)%nat ->
  exists t, s = (repeat_char c n ++ t)%string /\
            String.length s = (n + String.length t)%nat.
Proof.
  revert s. induction n as [|n IH]; intros s Hn.
  - exists s. split; reflexivity.
  - destruct s as [|a s]; simpl in Hn; [lia|].
    destruct (Ascii.eqb_spec a c) as [->|_]; [|lia].
    destruct (IH s) as (t & -> & Hlen); [lia|].
    exists t. split; [reflexivity|]. simpl. simpl in Hlen. lia.
Qed.

Lemma replace_skip o new n t :
  replace_from o new n (repeat_char c n ++ t) = replace_from o new 0 t.
Proof.
  induction n as [|n IH]; simpl; [reflexivity|exact IH].
Qed.

Lemma length_repeat_char n : String.length (repeat_char c n) = n.
Proof. induction n; simpl; congruence. Qed.

Lemma occurs_cons a r :
  occurs old (String a r) = (k <=? leading c (String a r))%nat || occurs old r.
Proof. simpl occurs. now rewrite <- prefix_repeat_leading. Qed.

Lemma occurs_empty : occurs old "" = false.
Proof.
  cbn [occurs]. rewrite prefix_repeat_leading. cbn [leading].
  destruct (Nat.leb_spec k 0); [lia|reflexivity].
Qed.

Lemma replace_runs_spec n : forall s,
  (String.length s <= n)%nat ->
  let r := replace_from old "" 0 s in
  (leading c r < k)%nat /\
  ((leading c s < k)%nat -> leading c r = leading c s) /\
  occurs old r = false.
Proof.
  induction n as [|n IH]; intros s Hlen.
  - destruct s; [|simpl in Hlen; lia].
    cbn [replace_from leading]. rewrite occurs_empty. repeat split; lia.
  - destruct s as [|a s].
    + cbn [replace_from leading]. rewrite occurs_empty. repeat split; lia.
    + cbn [replace_from]. rewrite prefix_repeat_leading.
      destruct (Nat.leb_spec k (leading c (String a s))) as [Hle|Hlt].
      * destruct (leading_split k (String a s) Hle) as (t & Heq & Hl).
        assert (Hk : k = S (k - 1)) by lia.
        rewrite Hk in Heq at 1. simpl in Heq. injection Heq as -> ->.
        rewrite length_repeat_char.
        change (("" ++ ?x)%string) with x.
        rewrite replace_skip.
        destruct (IH t) as (H1 & H2 & H3); [simpl in Hlen, Hl; lia|].
        repeat split; [exact H1|lia|exact H3].
      * destruct (IH s) as (H1 & H2 & H3); [simpl in Hlen; lia|].
        rewrite occurs_cons. simpl leading in *.
        destruct (Ascii.eqb a c).
        -- rewrite H2 by lia. repeat split; [lia|].
           destruct (Nat.leb_spec k (S (leading c s))); [lia|]. exact H3.
        -- repeat split; [lia|].
           destruct (Nat.leb_spec k 0); [lia|]. exact H3.
Qed.

Lemma replace_runs_no_occurrence s :
  occurs old (py_replace old "" s) = false.
Proof.
  unfold py_replace. now apply (replace_runs_spec (String.length s) s).
Qed.

End ReplaceRuns.

Lemma replace_absent c old' new s :
  has_char c s = false -> py_replace (String c old') new s = s.
Proof.
  unfold py_replace. induction s as [|a s IH]; simpl; [reflexivity|].
  intros H. apply orb_false_iff in H. destruct H as [Ha Hs].
  destruct (ascii_dec c a) as [<-|_]; [now rewrite Ascii.eqb_refl in Ha|].
  now rewrite IH.
Qed.

Lemma lstrip_has_char c s : has_char c s = false -> has_char c (lstrip s) = false.
Proof.
  induction s as [|a s IH]; simpl; [reflexivity|].
  intros H. destruct (is_space a); [|exact H].
  apply orb_false_iff in H. now apply IH.
Qed.

Lemma rstrip_has_char c s : has_char c s = false -> has_char c (rstrip s) = false.
Proof.
  induction s as [|a s IH]; simpl; [reflexivity|].
  intros H. apply orb_false_iff in H. destruct H as [Ha Hs].
  specialize (IH Hs). destruct (rstrip s) as [|b r].
  - destruct (is_space a); simpl; [reflexivity|now rewrite Ha].
  - simpl in *. now rewrite Ha.
Qed.

(** ** Fences and emphasis marks *)

(** X13.  Whatever the model answers, the text handed to [json.loads]
    contains no code fence: three consecutive backquotes never occur in
    it. *)
Theorem clean_response_has_no_fence (text : string) :
  occurs "```" (clean_response text) = false.
Proof.
  unfold clean_response.
  exact (replace_runs_no_occurrence "`"%char 3 (le_S _ _ (le_S _ _ (le_n 1))) _).
Qed.

(** X14.  A response without any backquote reaches [json.loads] as it
    is, apart from the white space stripped at both ends. *)
Theorem clean_response_without_backquote (text : string) :
  has_char "`"%char text = false -> clean_response text = py_strip text.
Proof.
  intros H. unfold clean_response.
  assert (Hs : has_char "`"%char (py_strip text) = false).
  { unfold py_strip. now apply rstrip_has_char, lstrip_has_char. }
  rewrite (replace_absent "`"%char "``json" "" _ Hs).
  exact (replace_absent "`"%char "``" "" _ Hs).
Qed.

Lemma clean_response_without_backquote_witness :
  clean_response "  [1, 2]  " = "[1, 2]"%string.
Proof.
  rewrite (clean_response_without_backquote "  [1, 2]  " eq_refl). reflexivity.
Defined.

(** X15.  The tips text shown on the Insights page contains no bold
    mark: two consecutive asterisks never occur in it. *)
Theorem format_tips_has_no_bold_mark (tips_content : string) :
  occurs "**" (format_tips tips_content) = false.
Proof.
  unfold format_tips.
  exact (replace_runs_no_occurrence "*"%char 2 (le_S _ _ (le_n 1)) _).
Qed.

(** ** Document extraction: what a call can change *)

Section ExtractionFrame.

Variable DOCUMENT_ANALYSIS_PROMPT : string.
Variable GenerativeModel : string -> option string.
Variable generate_content : request -> oracle_result.
Variable json_loads : string -> option json.
Variable float_of_string : string -> option Q.
Variable py_str : json -> string.

Local Abbreviation analyze :=
  (analyze_document_with_vision DOCUMENT_ANALYSIS_PROMPT GenerativeModel generate_content
     json_loads float_of_string py_str).
Local Abbreviation oracle_answers :=
  (oracle_answers DOCUMENT_ANALYSIS_PROMPT GenerativeModel generate_content).

(** A call leaves the state as it is, or writes the income and its text
    and then fails, or completes. *)
Lemma analyze_cases f st st' o :
  analyze f st = (st', o) ->
  (st' = st /\ o <> Rerun) \/
  (o <> Rerun /\ exists inc txt, st' = set_income_text txt (set_income inc st)) \/
  (o = Rerun /\ exists inc txt entries,
     st' = set_expense_entries entries (set_income_text txt (set_income inc st))).
Proof.
  unfold analyze_document_with_vision, analyze_body,
    bind, lift, put, open_image, ask_oracle, ret, raise.
  destruct (GenerativeModel MODEL_NAME) eqn:Eg;
    [intros [= <- <-]; left; (split; [reflexivity|discriminate])|].
  destruct (String.prefix "image/" (file_type f)) eqn:Ep;
    [|intros [= <- <-]; left; (split; [reflexivity|discriminate])].
  destruct (image_open_error f) eqn:Ei;
    [intros [= <- <-]; left; (split; [reflexivity|discriminate])|].
  destruct (generate_content _) as [text|text] eqn:Eo;
    [|intros [= <- <-]; left; (split; [reflexivity|discriminate])].
  destruct (json_loads (clean_response text)) as [data|] eqn:Ej;
    [|intros [= <- <-]; left; (split; [reflexivity|discriminate])].
  destruct (py_get data "income" (JNum 0)) as [s|income_j] eqn:E1.
  { pose proof (py_get_no_rerun data "income" (JNum 0)) as Hn. rewrite E1 in Hn.
    destruct s as [[]| | |]; simpl; try congruence;
      intros [= <- <-]; left; (split; [reflexivity|discriminate]). }
  destruct (py_get data "expenses" (JArr [])) as [s|expenses_j] eqn:E2.
  { pose proof (py_get_no_rerun data "expenses" (JArr [])) as Hn. rewrite E2 in Hn.
    destruct s as [[]| | |]; simpl; try congruence;
      intros [= <- <-]; left; (split; [reflexivity|discriminate]). }
  destruct (py_float float_of_string income_j) as [s|inc] eqn:E3.
  { pose proof (py_float_no_rerun float_of_string income_j) as Hn. rewrite E3 in Hn.
    destruct s as [[]| | |]; simpl; try congruence;
      intros [= <- <-]; left; (split; [reflexivity|discriminate]). }
  destruct (py_iter expenses_j) as [s|items] eqn:E4.
  { pose proof (py_iter_no_rerun expenses_j) as Hn. rewrite E4 in Hn.
    destruct s as [[]| | |]; simpl; try congruence;
      intros [= <- <-]; right; left; (split; [discriminate|eauto]). }
  destruct (comprehension float_of_string items) as [s|entries] eqn:E5.
  { pose proof (comprehension_no_rerun float_of_string items) as Hn. rewrite E5 in Hn.
    destruct s as [[]| | |]; simpl; try congruence;
      intros [= <- <-]; right; left; (split; [discriminate|eauto]). }
  intros [= <- <-]. right. right. split; [reflexivity|eauto].
Qed.

(** X16.  A call of the extraction, however it ends, leaves the name, the
    chat history and the pending flag as they were; the expense entries
    are replaced only by a call that completes, and then the income text
    is set. *)
Theorem extraction_touches_only_ledger (f : uploaded_file) (st st' : session_state)
  (o : outcome) :
  analyze f st = (st', o) ->
  name st' = name st /\
  chat_history st' = chat_history st /\
  processing_response st' = processing_response st /\
  (o <> Rerun -> expense_entries st' = expense_entries st) /\
  (o = Rerun -> income_text st' <> None).
Proof.
  intros H. apply analyze_cases in H.
  destruct H as [[-> Ho]|[[Ho (inc & txt & ->)]|[Ho (inc & txt & entries & ->)]]];
    simpl; repeat split; try congruence; try discriminate.
Qed.

(** X17.  When the response parses and its income converts to a number
    but the list of expenses cannot be read (it is not iterable, or an item
    makes the comprehension raise), the call shows an error and returns with
    the income and its text already overwritten and the entries as they
    were. *)
Theorem extraction_partial_commit (f : uploaded_file) (st : session_state)
  (text : string) (data income_j expenses_j : json) (inc : Q) (e : exn) :
  oracle_answers f text ->
  json_loads (clean_response text) = Some data ->
  py_get data "income" (JNum 0) = inr income_j ->
  py_get data "expenses" (JArr []) = inr expenses_j ->
  py_float float_of_string income_j = inr inc ->
  (py_iter expenses_j = inl (Raise e) \/
   exists items, py_iter expenses_j = inr items /\
                 comprehension float_of_string items = inl (Raise e)) ->
  exists st' err,
    analyze f st = (st', Returned err) /\
    income st' = inc /\
    income_text st' = Some (py_str income_j) /\
    expense_entries st' = expense_entries st.
Proof.
  intros (Hg & Hp & Hi & Ho) Hj H1 H2 H3 Hfail.
  unfold analyze_document_with_vision, analyze_body,
    bind, lift, put, open_image, ask_oracle, ret, raise.
  rewrite Hg, Hp, Hi, Ho, Hj, H1, H2, H3.
  destruct Hfail as [->|(items & -> & ->)];
    destruct e; simpl; eexists _, _; (split; [reflexivity|]); repeat split.
Qed.

(** X18.  Rejections before the response is read leave the state as it
    is: a file that is not an image stops the script without asking the
    model; a failure of the client, of the image library or of the model
    call is shown with its text. *)
Theorem extraction_rejections (f : uploaded_file) (st : session_state) :
  (GenerativeModel MODEL_NAME = None ->
   String.prefix "image/" (file_type f) = false ->
   analyze f st = (st, Stopped)) /\
  (forall err, GenerativeModel MODEL_NAME = Some err ->
   analyze f st =
     (st, Returned (ErrorWithException "An error occurred during document analysis: "
                      (LibraryException err)))) /\
  (forall err, GenerativeModel MODEL_NAME = None ->
   String.prefix "image/" (file_type f) = true ->
   image_open_error f = Some err \/
   image_open_error f = None /\
   generate_content (VisionRequest DOCUMENT_ANALYSIS_PROMPT f) = OracleRaises err ->
   analyze f st =
     (st, Returned (ErrorWithException "An error occurred during document analysis: "
                      (LibraryException err)))).
Proof.
  unfold analyze_document_with_vision, analyze_body,
    bind, lift, put, open_image, ask_oracle, ret, raise.
  split; [|split].
  - intros -> ->. reflexivity.
  - intros err ->. reflexivity.
  - intros err -> -> [->|[-> ->]]; reflexivity.
Qed.

End ExtractionFrame.

Lemma extraction_touches_only_ledger_witness :
  let st := ledger_state 1000 [rent_15000] in
  expense_entries (fst (example_analyze "not json" st)) = expense_entries st.
Proof.
  intros st.
  destruct (example_analyze "not json" st) as [st' o] eqn:E.
  destruct (extraction_touches_only_ledger "extract" (fun _ => None)
              (fun _ => OracleText "not json"%string) example_loads (fun _ => None)
              (fun _ => "50000"%string) example_file st st' o E) as (_ & _ & _ & H & _).
  apply H. injection E as <- <-. discriminate.
Defined.

Lemma extraction_partial_commit_witness :
  let st := ledger_state 1000 [rent_15000] in
  exists st' err,
    analyze_document_with_vision "extract" (fun _ => None)
      (fun _ => OracleText "{...}") (fun _ => Some bad_amount_data) (fun _ => None)
      (fun _ => "50000"%string) example_file st = (st', Returned err) /\
    income st' = 50000 /\
    income_text st' = Some "50000"%string /\
    expense_entries st' = [rent_15000].
Proof.
  intros st.
  apply (extraction_partial_commit "extract" (fun _ => None)
           (fun _ => OracleText "{...}"%string) (fun _ => Some bad_amount_data)
           (fun _ => None) (fun _ => "50000"%string) example_file st
           "{...}"%string bad_amount_data (JNum 50000)
           (JArr [JObj [("category", JStr "Rent"); ("amount", JStr "abc")]]%string)
           50000 ValueError).
  - repeat split.
  - reflexivity.
  - reflexivity.
  - reflexivity.
  - reflexivity.
  - right. eexists. split; reflexivity.
Defined.

Lemma extraction_rejections_witness :
  let st := ledger_state 1000 [rent_15000] in
  analyze_document_with_vision "extract" (fun _ => None)
    (fun _ => OracleText example_text) example_loads (fun _ => None)
    (fun _ => "50000"%string) pdf_file st = (st, Stopped).
Proof.
  intros st.
  apply (extraction_rejections "extract" (fun _ => None)
           (fun _ => OracleText example_text) example_loads (fun _ => None)
           (fun _ => "50000"%string) pdf_file st); reflexivity.
Defined.

(** ** Insights text *)

(** X19.  The insights text is fetched once: when the first call fails,
    its error message is what every later call returns, whatever the model
    would answer by then. *)
Theorem insights_error_is_cached (prompt err : string)
  (GenerativeModel GenerativeModel' : string -> option string)
  (generate_content generate_content' : request -> oracle_result) :
  GenerativeModel MODEL_NAME = Some err \/
  GenerativeModel MODEL_NAME = None /\
  generate_content (TextRequest prompt) = OracleRaises err ->
  let first := cached_insights_content prompt GenerativeModel generate_content None in
  let second := cached_insights_content prompt GenerativeModel' generate_content' (snd first) in
  fst first = ("An error occurred while fetching insights: " ++ err)%string /\
  fst second = fst first /\
  snd second = snd first.
Proof.
  intros H first second.
  assert (He : get_insights_content prompt GenerativeModel generate_content
               = ("An error occurred while fetching insights: " ++ err)%string).
  { unfold get_insights_content. destruct H as [->|[-> ->]]; reflexivity. }
  subst first second. unfold cached_insights_content. simpl.
  rewrite He. repeat split.
Qed.

Lemma insights_error_is_cached_witness :
  fst (cached_insights_content "tips" (fun _ => None) (fun _ => OracleText "Save early.")
         (snd (cached_insights_content "tips" (fun _ => Some "no key"%string)
                 (fun _ => OracleText "Save early.") None)))
  = "An error occurred while fetching insights: no key"%string.
Proof.
  destruct (insights_error_is_cached "tips" "no key" (fun _ => Some "no key"%string)
              (fun _ => None) (fun _ => OracleText "Save early."%string)
              (fun _ => OracleText "Save early."%string)) as (H1 & H2 & _).
  - now left.
  - rewrite H2. exact H1.
Defined.

(** ** Advisor: what a run can change *)

Section AdvisorFrame.

Variable ADVISOR_SYSTEM_PROMPT : string.
Variable GenerativeModel : string -> option string.
Variable generate_content : request -> oracle_result.
Variable str_float : Q -> string.
Variable capitalize : string -> string.

Local Abbreviation advice :=
  (get_financial_advice ADVISOR_SYSTEM_PROMPT GenerativeModel generate_content).
Local Abbreviation page :=
  (page_advisor ADVISOR_SYSTEM_PROMPT GenerativeModel generate_content str_float capitalize).
Local Abbreviation init := (init_advisor capitalize).

Lemma page_advisor_cases q st :
  (truthy_float (income st) = false /\ page q st = (st, inr tt)) \/
  (truthy_float (income st) = true /\
   (page q st = (init st, inr tt) \/
    page q st = (init st, inl (Raise IndexError)) \/
    exists m, page q st = (set_processing_response true (append_message m (init st)),
                           inl RerunException) \/
              page q st = (set_processing_response false (append_message m (init st)),
                           inl RerunException))).
Proof.
  unfold page_advisor, bind, get_state, put, lift, ret.
  destruct (truthy_float (income st)); [right|left; split; reflexivity].
  split; [reflexivity|]. cbn [negb fst snd]. fold (init st).
  destruct (query_given q && negb (processing (init st))).
  - right. right. eexists. left. reflexivity.
  - destruct (processing (init st)); [|left; reflexivity].
    destruct (last_content (history (init st))) as [s|lq] eqn:E.
    + unfold last_content in E.
      destruct (List.last _ _); [discriminate|]. injection E as <-.
      right. left. reflexivity.
    + right. right. eexists. right. reflexivity.
Qed.

(** X20.  A run of the advisor page, whatever the input and however it
    ends, leaves the name, the income, its text and the expense entries as
    they are, and an existing chat history only grows, by at most one
    message; without an income the whole state is unchanged. *)
Theorem advisor_run_effects (q : option string) (st st' : session_state)
  (r : result unit) (h : list chat_message) :
  page q st = (st', r) ->
  chat_history st = Some h ->
  name st' = name st /\ income st' = income st /\
  income_text st' = income_text st /\
  expense_entries st' = expense_entries st /\
  (exists suffix, chat_history st' = Some (h ++ suffix) /\ (length suffix <= 1)%nat) /\
  (truthy_float (income st) = false -> st' = st).
Proof.
  intros Hrun Hh.
  destruct (init_fields capitalize st) as (Hn & Hi & Ht & He & Hhist & _ & Hc & _).
  assert (Hsh : shown_history capitalize st = h) by (unfold shown_history; now rewrite Hh).
  rewrite Hsh in *.
  destruct (page_advisor_cases q st)
    as [[Hf Hp]|[Htr [Hp|[Hp|(m & [Hp|Hp])]]]];
    rewrite Hp in Hrun; injection Hrun as <- <-;
    cbn [name income income_text expense_entries chat_history
         set_processing_response append_message set_chat_history];
    rewrite ?Hn, ?Hi, ?Ht, ?He, ?Hhist, ?Hc; repeat split; try congruence.
  - exists []. rewrite app_nil_r. split; [exact Hh|simpl; lia].
  - exists []. rewrite app_nil_r. split; [reflexivity|simpl; lia].
  - exists []. rewrite app_nil_r. split; [reflexivity|simpl; lia].
  - exists [m]. split; [reflexivity|simpl; lia].
  - exists [m]. split; [reflexivity|simpl; lia].
Qed.

(** X21.  The answer depends on the question and on the ledger only: two
    sessions with the same income and entries and the same pending question
    get the same assistant message, whatever was said before; when the
    model answers, the message is its text as it is. *)
Theorem advisor_ignores_earlier_turns (st1 st2 : session_state)
  (h1 h2 : list chat_message) (question : string) :
  truthy_float (income st1) = true ->
  income st2 = income st1 ->
  expense_entries st2 = expense_entries st1 ->
  chat_history st1 = Some (h1 ++ [ {| msg_role := user; content := question |} ]) ->
  chat_history st2 = Some (h2 ++ [ {| msg_role := user; content := question |} ]) ->
  processing_response st1 = Some true ->
  processing_response st2 = Some true ->
  exists a,
    page None st1 =
      (set_processing_response false
         (append_message {| msg_role := assistant; content := a |} st1),
       inl RerunException) /\
    page None st2 =
      (set_processing_response false
         (append_message {| msg_role := assistant; content := a |} st2),
       inl RerunException) /\
    (forall text,
       GenerativeModel MODEL_NAME = None ->
       generate_content
         (TextRequest (full_prompt ADVISOR_SYSTEM_PROMPT (user_data str_float st1) question))
       = OracleText text ->
       a = text).
Proof.
  intros Hinc Hi He Hh1 Hh2 Hp1 Hp2.
  exists (advice (user_data str_float st1) question).
  assert (Hd : user_data str_float st2 = user_data str_float st1).
  { unfold user_data, expenses_text. now rewrite Hi, He. }
  split; [|split].
  - now apply (page_advisor_answer _ _ _ _ _ st1 h1).
  - rewrite <- Hd. apply (page_advisor_answer _ _ _ _ _ st2 h2); [congruence|assumption..].
  - intros text Hg Ho. unfold get_financial_advice. now rewrite Hg, Ho.
Qed.

End AdvisorFrame.

Lemma advisor_run_effects_witness :
  let st := set_chat_history [] (ledger_state 50000 [rent_15000]) in
  exists st' r,
    page_advisor "You are a financial advisor." (fun _ => None)
      (fun _ => OracleText "Save more.") (fun _ => "0"%string) (fun s => s)
      (Some "Hi"%string) st = (st', r) /\
    expense_entries st' = [rent_15000] /\
    chat_history st' = Some [ {| msg_role := user; content := "Hi" |} ].
Proof.
  intros st. eexists _, _. split; [reflexivity|].
  destruct (advisor_run_effects "You are a financial advisor." (fun _ => None)
              (fun _ => OracleText "Save more."%string) (fun _ => "0"%string) (fun s => s)
              (Some "Hi"%string) st _ _ [] eq_refl eq_refl) as (_ & _ & _ & He & _).
  split; [exact He|reflexivity].
Defined.

Lemma advisor_ignores_earlier_turns_witness :
  let ask := {| msg_role := user; content := "Can I buy a car?" |} in
  let old := {| msg_role := assistant; content := "Earlier advice." |} in
  let st1 := set_processing_response true
               (set_chat_history [ask] (ledger_state 50000 [rent_15000])) in
  let st2 := set_processing_response true
               (set_chat_history [old; old; ask] (ledger_state 50000 [rent_15000])) in
  exists a,
    page_advisor "You are a financial advisor." (fun _ => None)
      (fun _ => OracleText "Save more.") (fun _ => "0"%string) (fun s => s) None st1
    = (set_processing_response false
         (append_message {| msg_role := assistant; content := a |} st1),
       inl RerunException) /\
    page_advisor "You are a financial advisor." (fun _ => None)
      (fun _ => OracleText "Save more.") (fun _ => "0"%string) (fun s => s) None st2
    = (set_processing_response false
         (append_message {| msg_role := assistant; content := a |} st2),
       inl RerunException).
Proof.
  intros ask old st1 st2.
  destruct (advisor_ignores_earlier_turns "You are a financial advisor." (fun _ => None)
              (fun _ => OracleText "Save more."%string) (fun _ => "0"%string) (fun s => s)
              st1 st2 [] [old; old] "Can I buy a car?"%string
              eq_refl eq_refl eq_refl eq_refl eq_refl eq_refl eq_refl) as (a & H1 & H2 & _).
  exists a. split; assumption.
Defined.

Local Close Scope Q_scope.

(** ** Quiz: bounds, revisiting a question, scores *)

Lemma quiz_step_bound qs st w :
  current_question st <= length qs ->
  current_question (quiz_step qs st w) <= length qs.
Proof.
  unfold quiz_step, quiz_dialog. intros Hb.
  destruct (Nat.leb_spec (length qs) (current_question st)).
  - destruct (clicked w) as [[]|]; simpl; lia.
  - destruct (clicked w) as [[]|]; simpl; try lia.
    + destruct (current_question st =? 0); simpl; lia.
    + destruct (user_choice w); simpl; lia.
Qed.

(** X22.  During an attempt the question index never passes the number
    of questions, whatever is clicked; so while the dialog shows a question
    that question exists, and the dialog shows the result exactly when the
    index equals the number of questions. *)
Theorem quiz_index_in_range (qs : list quiz_question) (title : string) (ws : list widgets) :
  let st := quiz_run qs ws (reset_quiz title true) in
  current_question st <= length qs /\
  (forall w i, snd (quiz_dialog qs w st) = QuestionView i ->
               i = current_question st /\ is_Some (nth_error qs i)) /\
  (forall w, (exists score, snd (quiz_dialog qs w st) = Completed score)
             <-> current_question st = length qs).
Proof.
  intros st.
  assert (Hb : current_question st <= length qs).
  { subst st. assert (H : forall s, current_question s <= length qs ->
                          current_question (quiz_run qs ws s) <= length qs).
    { induction ws as [|w ws IH]; intros s Hs; simpl; [exact Hs|].
      apply IH. now apply quiz_step_bound. }
    apply H. simpl. lia. }
  split; [exact Hb|]. split.
  - intros w i. unfold quiz_dialog.
    destruct (Nat.leb_spec (length qs) (current_question st)) as [Hle|Hlt].
    + destruct (clicked w) as [[]|]; discriminate.
    + assert (Hi : is_Some (nth_error qs (current_question st))).
      { destruct (nth_error qs (current_question st)) eqn:E; [eauto|].
        apply nth_error_None in E. lia. }
      destruct (clicked w) as [[]|]; simpl;
        try (intros [= <-]; split; [reflexivity|exact Hi]).
      * destruct (current_question st =? 0); intros [= <-]; split; [reflexivity|exact Hi| |exact Hi]; reflexivity.
      * destruct (user_choice w); intros [= <-]; split; [reflexivity|exact Hi| |exact Hi]; reflexivity.
  - intros w. unfold quiz_dialog.
    destruct (Nat.leb_spec (length qs) (current_question st)) as [Hle|Hlt].
    + split; [intros _; lia|intros _].
      destruct (clicked w) as [[]|]; eauto.
    + split; [|lia]. intros [score Hs].
      destruct (clicked w) as [[]|]; simpl in Hs; try discriminate.
      * destruct (current_question st =? 0); discriminate.
      * destruct (user_choice w); discriminate.
Qed.

Lemma quiz_index_in_range_witness :
  let st := quiz_run two_questions [next_with (Some "A"%string)]
              (reset_quiz "Chapter 1: Needs vs Wants" true) in
  snd (quiz_dialog two_questions (next_with None) st) = QuestionView 1 /\
  is_Some (nth_error two_questions 1).
Proof.
  intros st. split; [reflexivity|].
  destruct (quiz_index_in_range two_questions "Chapter 1: Needs vs Wants"
              [next_with (Some "A"%string)]) as (_ & H & _).
  exact (proj2 (H (next_with None) 1 eq_refl)).
Defined.

(** X23.  "Previous" never touches the recorded answers and is without
    effect on the first question.  Answering a question, going back to it
    and answering again keeps the last choice only: the state is the one
    reached by giving the last choice at once. *)
Theorem quiz_revisit_overwrites (qs : list quiz_question) (st : quiz_state) :
  let previous := {| user_choice := None; clicked := Some PreviousButton |} in
  user_answers (quiz_step qs st previous) = user_answers st /\
  (current_question st = 0 -> quiz_step qs st previous = st) /\
  (forall c1 c2,
     current_question st + 1 < length qs ->
     quiz_step qs (quiz_step qs (quiz_step qs st (next_with (Some c1))) previous)
       (next_with (Some c2))
     = quiz_step qs st (next_with (Some c2))).
Proof.
  intros previous. split; [|split].
  - unfold quiz_step, quiz_dialog. simpl.
    destruct (length qs <=? current_question st); [reflexivity|].
    destruct (current_question st =? 0); reflexivity.
  - intros H0. unfold quiz_step, quiz_dialog. simpl. rewrite H0.
    destruct (length qs <=? 0); reflexivity.
  - intros c1 c2 Hlt. unfold quiz_step, quiz_dialog. simpl.
    destruct (Nat.leb_spec (length qs) (current_question st)); [lia|]. simpl.
    destruct (Nat.leb_spec (length qs) (current_question st + 1)); [lia|]. simpl.
    destruct (Nat.eqb_spec (current_question st + 1) 0); [lia|]. simpl.
    replace (current_question st + 1 - 1) with (current_question st) by lia.
    destruct (Nat.leb_spec (length qs) (current_question st)); [lia|]. simpl.
    unfold set_current_question, set_user_answers. simpl.
    now rewrite insert_insert_eq.
Qed.

Lemma quiz_revisit_overwrites_witness :
  let previous := {| user_choice := None; clicked := Some PreviousButton |} in
  let st := reset_quiz "Chapter 1: Needs vs Wants" true in
  user_answers
    (quiz_step two_questions
       (quiz_step two_questions (quiz_step two_questions st (next_with (Some "C"%string)))
          previous)
       (next_with (Some "A"%string))) !! 0 = Some "A"%string.
Proof.
  cbv zeta.
  destruct (quiz_revisit_overwrites two_questions
              (reset_quiz "Chapter 1: Needs vs Wants" true)) as (_ & _ & H).
  cbv zeta in H. rewrite (H "C"%string "A"%string); [reflexivity|simpl; lia].
Defined.

Lemma filter_length_le {A} (p : A -> bool) (l : list A) :
  length (List.filter p l) <= length l.
Proof. induction l as [|x l IH]; simpl; [lia|]. destruct (p x); simpl; lia. Qed.

Lemma filter_length_full {A} (p : A -> bool) (l : list A) :
  length (List.filter p l) = length l <-> Forall (fun x => p x = true) l.
Proof.
  induction l as [|x l IH]; simpl.
  - split; [constructor|reflexivity].
  - pose proof (filter_length_le p l) as Hle. destruct (p x) eqn:E; simpl.
    + split.
      * intros H. constructor; [exact E|]. apply IH. lia.
      * intros H. inversion H; subst. f_equal. now apply IH.
    + split; [lia|]. intros H. inversion H; subst. congruence.
Qed.

(** X24.  The score is at most the number of questions, and it equals
    that number exactly when, for every question, the recorded answer is
    its correct option. *)
Theorem quiz_score_bounds (qs : list quiz_question) (answers : gmap nat string) :
  quiz_score qs answers <= length qs /\
  (quiz_score qs answers = length qs <->
   forall i q, nth_error qs i = Some q -> answers !! i = Some (answer q)).
Proof.
  rewrite quiz_score_counts. unfold count_indices. split.
  - etransitivity; [apply filter_length_le|]. now rewrite length_seq.
  - split.
    + intros H i q Hq.
      assert (Hall : Forall (fun i => correct_at qs answers i = true) (seq 0 (length qs))).
      { apply filter_length_full. now rewrite length_seq. }
      rewrite List.Forall_forall in Hall.
      assert (Hi : In i (seq 0 (length qs))).
      { apply in_seq. split; [lia|]. simpl. apply nth_error_Some. congruence. }
      specialize (Hall i Hi). unfold correct_at in Hall. rewrite Hq in Hall.
      destruct (answers !! i) as [c|]; [|discriminate].
      apply String.eqb_eq in Hall. now subst.
    + intros H. transitivity (length (seq 0 (length qs))); [|apply length_seq].
      apply filter_length_full. apply List.Forall_forall.
      intros i Hi. apply in_seq in Hi. unfold correct_at.
      destruct (nth_error qs i) as [q|] eqn:Hq.
      * rewrite (H i q Hq). apply String.eqb_refl.
      * apply nth_error_None in Hq. lia.
Qed.

Lemma quiz_score_bounds_witness :
  quiz_score two_questions (<[0 := "A"%string]> (<[1 := "B"%string]> ∅)) = 2.
Proof.
  apply (proj2 (quiz_score_bounds two_questions _)).
  intros i q Hq. destruct i as [|[|i]]; simpl in Hq.
  - injection Hq as <-. reflexivity.
  - injection Hq as <-. reflexivity.
  - destruct i; discriminate.
Defined.

(** ** Fin-Bites page: the selected lesson *)

Lemma nth_error_lookup_lesson lessons i title l :
  nth_error lessons i = Some (title, l) -> is_Some (lookup_lesson lessons title).
Proof.
  revert i. induction lessons as [|[t l'] lessons IH]; intros i Hn.
  - destruct i; discriminate.
  - simpl. destruct (String.eqb t title) eqn:E; [eauto|].
    destruct i as [|i]; simpl in Hn.
    + injection Hn as -> _. now rewrite String.eqb_refl in E.
    + now apply (IH i).
Qed.

Lemma quiz_dialog_keeps_lesson qs w st :
  selected_lesson (fst (quiz_dialog qs w st)) = selected_lesson st.
Proof.
  unfold quiz_dialog. destruct (length qs <=? current_question st).
  - destruct (clicked w) as [[]|]; reflexivity.
  - destruct (clicked w) as [[]|]; try reflexivity.
    + destruct (current_question st =? 0); reflexivity.
    + destruct (user_choice w); reflexivity.
Qed.

Lemma page_fin_bites_keeps_lesson lessons w st :
  is_Some (lookup_lesson lessons (selected_lesson st)) ->
  exists st' v, page_fin_bites lessons w st = Some (st', v) /\
                is_Some (lookup_lesson lessons (selected_lesson st')).
Proof.
  intros [l Hl].
  assert (Hdialog : exists st' v,
            Some (if show_quiz st then quiz_dialog (quiz l) w st else (st, NoDialog))
            = Some (st', v) /\
            is_Some (lookup_lesson lessons (selected_lesson st'))).
  { destruct (show_quiz st).
    - exists (fst (quiz_dialog (quiz l) w st)), (snd (quiz_dialog (quiz l) w st)).
      split; [now rewrite <- surjective_pairing|].
      rewrite quiz_dialog_keeps_lesson, Hl. eauto.
    - eexists _, _. split; [reflexivity|]. rewrite Hl. eauto. }
  unfold page_fin_bites.
  destruct (clicked w) as [[i| | | |]|].
  - destruct (nth_error lessons i) as [[t l']|] eqn:E.
    + eexists _, _. split; [reflexivity|]. simpl.
      now apply (nth_error_lookup_lesson lessons i t l').
    + rewrite Hl. destruct (show_quiz st); exact Hdialog.
  - rewrite Hl. eexists _, _. split; [reflexivity|]. simpl. rewrite Hl. eauto.
  - rewrite Hl. destruct (show_quiz st); exact Hdialog.
  - rewrite Hl. destruct (show_quiz st); exact Hdialog.
  - rewrite Hl. destruct (show_quiz st); exact Hdialog.
  - rewrite Hl. destruct (show_quiz st); exact Hdialog.
Qed.

(** X25.  From the first run on a non-empty catalog, and whatever is
    clicked, every run of the Fin-Bites page finds the selected lesson in
    the catalog: the lookup of line 702 never fails. *)
Theorem fin_bites_lesson_always_found (lessons : list (string * lesson))
  (ws : list widgets) (st0 : quiz_state) :
  initial_quiz_state lessons = Some st0 ->
  exists st, fin_bites_runs lessons ws st0 = Some st /\
             is_Some (lookup_lesson lessons (selected_lesson st)).
Proof.
  intros Hinit.
  assert (H0 : is_Some (lookup_lesson lessons (selected_lesson st0))).
  { destruct lessons as [|[t l] lessons]; [discriminate|].
    injection Hinit as <-. simpl. rewrite String.eqb_refl. eauto. }
  clear Hinit. revert st0 H0. induction ws as [|w ws IH]; intros st0 H0; simpl.
  - eauto.
  - destruct (page_fin_bites_keeps_lesson lessons w st0 H0) as (st' & v & -> & H').
    now apply IH.
Qed.

Lemma fin_bites_lesson_always_found_witness :
  exists st,
    fin_bites_runs fin_bites_lessons
      [ {| user_choice := None; clicked := Some (LessonButton 2) |};
        {| user_choice := None; clicked := Some QuizButton |};
        next_with (Some "3 years"%string) ]
      (reset_quiz "Chapter 1: Needs vs Wants" false) = Some st /\
    is_Some (lookup_lesson fin_bites_lessons (selected_lesson st)).
Proof.
  apply (fin_bites_lesson_always_found fin_bites_lessons). reflexivity.
Defined.
